(** * Lelana.id: the upload guard and the chatbot orchestrator

    A shallow embedding of [app/services/file_handler.py] and
    [app/services/chatbot_handler.py], with the library calls they rest on
    ([str] methods, [os.path], [uuid.uuid4], [requests], [magic]) written out
    as far as the properties below depend on them.

    Conventions.
    - A Python [str] is the list of its code points ([list N]); [u "..."]
      turns an ASCII literal into such a list.
    - [bytes] are [list Byte.byte].
    - The upload directory is a finite map from path to file content. The
      folder itself is configuration: an existing, writable directory on a
      POSIX host. Opening a destination in it fails on what the client can
      bring about through the file name, a NUL or an over-long last
      component; the disk's own errors (no space, no permission) are
      outside this model.
    - A parsed JSON document is a [pyobj]; Python's [None] is [PNone].
    - Exceptions are values of [exn]; a call either returns or raises.
    - Calls to [current_app.logger] have no effect on any result and are
      left out. *)

From Stdlib Require Import List NArith ZArith Lia Bool.
From Stdlib Require Import Strings.Ascii Strings.String Strings.Byte.
From Stdlib Require Import Floats.PrimFloat.
From stdpp Require Import gmap.
Import ListNotations.

Local Open Scope N_scope.

(* ===================================================================== *)
(** * Python strings *)
(* ===================================================================== *)

Module PyStr.

Abbreviation pystr := (list N).

(** An ASCII literal as a list of code points. *)
Fixpoint u (s : string) : pystr :=
  match s with
  | EmptyString => []
  | String c s' => N_of_ascii c :: u s'
  end.

Definition eqb (a b : pystr) : bool := bool_decide (a = b).

(** [s.startswith(p)] *)
Fixpoint startswith (p s : pystr) : bool :=
  match p, s with
  | [], _ => true
  | _ :: _, [] => false
  | a :: p', b :: s' => (a =? b) && startswith p' s'
  end.

(** [s.endswith(p)] *)
Definition endswith (p s : pystr) : bool := startswith (rev p) (rev s).

(** [sub in s] *)
Fixpoint contains (sub s : pystr) : bool :=
  startswith sub s ||
  match s with
  | [] => false
  | _ :: s' => contains sub s'
  end.

(** [s.replace(old, new)] for a non-empty [old]: the text is scanned from
    the left; at a match [new] is emitted and the scan resumes behind the
    match ([skip] counts the characters of the match still to pass). *)
Fixpoint replace_from (old new : pystr) (skip : nat) (s : pystr) : pystr :=
  match s with
  | [] => []
  | c :: s' =>
      match skip with
      | S k => replace_from old new k s'
      | O =>
          if startswith old s
          then new ++ replace_from old new (length old - 1)%nat s'
          else c :: replace_from old new 0%nat s'
      end
  end.

(** [s.replace(old, new)]; an empty [old] matches before every character
    and at the end. *)
Definition replace (old new s : pystr) : pystr :=
  match old with
  | [] => new ++ flat_map (fun c => c :: new) s
  | _ :: _ => replace_from old new 0%nat s
  end.

(** [str.isspace] on one code point (the Unicode White_Space set and the
    separators U+001C..U+001F, as CPython has it). *)
Definition isspace (c : N) : bool :=
  ((9 <=? c) && (c <=? 13)) || ((28 <=? c) && (c <=? 32)) ||
  (c =? 133) || (c =? 160) || (c =? 5760) ||
  ((8192 <=? c) && (c <=? 8202)) ||
  (c =? 8232) || (c =? 8233) || (c =? 8239) || (c =? 8287) || (c =? 12288).

Fixpoint lstrip (s : pystr) : pystr :=
  match s with
  | [] => []
  | c :: s' => if isspace c then lstrip s' else s
  end.

Definition rstrip (s : pystr) : pystr := rev (lstrip (rev s)).

(** [s.strip()] *)
Definition strip (s : pystr) : pystr := rstrip (lstrip s).

(** [s.rfind(c)] for a single character: the highest index holding [c],
    or [-1]. *)
Fixpoint rfind (c : N) (s : pystr) : Z :=
  match s with
  | [] => (-1)%Z
  | x :: s' =>
      let r := rfind c s' in
      if (0 <=? r)%Z then (r + 1)%Z
      else if x =? c then 0%Z else (-1)%Z
  end.

End PyStr.
Export PyStr.

(* ===================================================================== *)
(** * [os.path] on a POSIX host *)
(* ===================================================================== *)

Module PosixPath.

Definition sep : N := 47.      (* '/' *)
Definition extsep : N := 46.   (* '.' *)

(** The [while filenameIndex < dotIndex] loop of [genericpath._splitext]:
    [true] as soon as a character other than the dot is met, [false] when
    the [n] positions from [filenameIndex] on are all dots. *)
Fixpoint has_stem (p : pystr) (filenameIndex n : nat) : bool :=
  match n with
  | O => false
  | S n' =>
      if negb (nth filenameIndex p 0 =? extsep) then true
      else has_stem p (S filenameIndex) n'
  end.

(** [os.path.splitext(p)] *)
Definition splitext (p : pystr) : pystr * pystr :=
  let sepIndex := rfind sep p in
  let dotIndex := rfind extsep p in
  if (sepIndex <? dotIndex)%Z
     && has_stem p (Z.to_nat (sepIndex + 1)) (Z.to_nat (dotIndex - (sepIndex + 1)))
  then (firstn (Z.to_nat dotIndex) p, skipn (Z.to_nat dotIndex) p)
  else (p, []).

(** [os.path.basename(p)] *)
Definition basename (p : pystr) : pystr :=
  skipn (Z.to_nat (rfind sep p + 1)) p.

(** [os.path.join(a, b)] *)
Definition join (a b : pystr) : pystr :=
  if startswith [sep] b then b
  else if PyStr.eqb a [] || endswith [sep] a then a ++ b
  else a ++ [sep] ++ b.

End PosixPath.

(* ===================================================================== *)
(** * [uuid.uuid4] *)
(* ===================================================================== *)

Module Uuid.

(** One lower-case hexadecimal digit. *)
Definition hexdigit (d : N) : N := if d <? 10 then 48 + d else 87 + d.

(** ['%032x' % n] for [n < 2^128]: the 32 nibbles, most significant
    first. *)
Definition hex32 (n : N) : pystr :=
  map (fun i => hexdigit ((n / 16 ^ N.of_nat (31 - i)) mod 16)) (seq 0 32).

(** [UUID(bytes=os.urandom(16), version=4).int]: the 16 random bytes read
    big-endian, then the variant and version bits forced. *)
Definition uuid4_int (random : N) : N :=
  let i := random mod 2 ^ 128 in
  let i := N.ldiff i (N.shiftl 0xc000 48) in
  let i := N.lor i (N.shiftl 0x8000 48) in
  let i := N.ldiff i (N.shiftl 0xf000 64) in
  N.lor i (N.shiftl 4 76).

(** [str(UUID)]: 8-4-4-4-12 hexadecimal digits joined by dashes. *)
Definition uuid_str (int : N) : pystr :=
  let hex := hex32 int in
  let dash := [45] in
  firstn 8 hex ++ dash ++ firstn 4 (skipn 8 hex) ++ dash ++
  firstn 4 (skipn 12 hex) ++ dash ++ firstn 4 (skipn 16 hex) ++ dash ++
  skipn 20 hex.

End Uuid.


(* ===================================================================== *)
(** * Exceptions and results *)
(* ===================================================================== *)

(** The exception classes that the two services can meet.
    [SliceOfDictError] is what [d[:3]] raises on a [dict]: [TypeError]
    before Python 3.12, [KeyError] from it on. *)
Inductive exn : Type :=
| ValueError (msg : pystr)
| TypeError
| AttributeError
| KeyError
| IndexError
| RequestException
| OSError
| RecursionError
| SliceOfDictError.

(** What a call comes to: a returned value or a raised exception. *)
Inductive outcome (A : Type) : Type :=
| Returns (a : A)
| Raises (e : exn).
Arguments Returns {A} a.
Arguments Raises {A} e.

(* ===================================================================== *)
(** * [app/services/file_handler.py] *)
(* ===================================================================== *)

Module FileHandler.
Import PosixPath Uuid.

(** An uploaded file (werkzeug's [FileStorage]): the client's file name
    and a seekable stream, given by its whole content and the current
    position in it. *)
Record FileStorage : Type := {
  filename : pystr;
  stream : list byte;
  pos : nat
}.

(** [picture.stream.read(n)] *)
Definition stream_read (n : nat) (f : FileStorage) : list byte * FileStorage :=
  let data := firstn n (skipn (pos f) (stream f)) in
  (data, {| filename := filename f; stream := stream f;
            pos := (pos f + length data)%nat |}).

(** [picture.stream.seek(p)] *)
Definition stream_seek (p : nat) (f : FileStorage) : FileStorage :=
  {| filename := filename f; stream := stream f; pos := p |}.

(** What the service acts on: the files on disk, and the operating
    system's random source as the sequence of its 16-byte draws (each read
    as a number) with the count of those already taken. *)
Record World : Type := {
  disk : gmap pystr (list byte);
  entropy : nat -> N;
  drawn : nat
}.

(** The longest file name, in bytes, of the usual file systems. *)
Definition NAME_MAX : N := 255.

(** The bytes a text takes as a file name ([os.fsencode], UTF-8), for the
    texts werkzeug hands over, which hold no surrogate. *)
Definition utf8_length (s : pystr) : N :=
  fold_right
    (fun c n =>
       (if c <? 128 then 1 else if c <? 2048 then 2 else if c <? 65536 then 3 else 4)
       + n) 0 s.

(** [open(dst, 'wb')] refusing the destination: a NUL in the name makes
    Python raise [ValueError] before it asks the system, a last component
    of more than [NAME_MAX] bytes makes the system answer
    [ENAMETOOLONG]. The directory part is the configured folder. *)
Definition open_error (dst : pystr) : option exn :=
  let name := basename dst in
  if existsb (N.eqb 0) name then Some (ValueError (u "embedded null byte"))
  else if NAME_MAX <? utf8_length name then Some OSError
  else None.

(** [picture.save(dst)]: the destination is opened for writing (an
    existing file is replaced) and the stream is copied from its current
    position to its end; when the destination cannot be opened nothing is
    written and the error is raised. *)
Definition save (f : FileStorage) (dst : pystr) (w : World) : option exn * World :=
  match open_error dst with
  | Some e => (Some e, w)
  | None =>
      (None,
       {| disk := <[dst := skipn (pos f) (stream f)]> (disk w);
          entropy := entropy w; drawn := drawn w |})
  end.

(** [uuid.uuid4().int] *)
Definition uuid4 (w : World) : N * World :=
  (uuid4_int (entropy w (drawn w)),
   {| disk := disk w; entropy := entropy w; drawn := S (drawn w) |}).

Definition allowed_mimes : list pystr :=
  [u "image/jpeg"; u "image/png"; u "image/gif"].

(** [m in l] for a list of strings *)
Definition mime_in (m : pystr) (l : list pystr) : bool :=
  existsb (PyStr.eqb m) l.

(** The text of the [ValueError] of [save_pictures]. *)
Definition invalid_type_message (detected_mime : pystr) : pystr :=
  u "Tipe file tidak valid: terdeteksi " ++ detected_mime ++
  u ". Hanya gambar yang diizinkan.".

Section SavePictures.
(** [magic.Magic(mime=True).from_buffer]: libmagic's signature data base
    is not part of the repository. *)
Variable from_buffer : list byte -> pystr.
(** [current_app.config['UPLOAD_FOLDER']] *)
Variable UPLOAD_FOLDER : pystr.

(** The MIME type the loop body detects for a candidate: that of the
    first 2048 bytes from the stream's position (the start of the file for
    an upload that nothing has read yet). *)
Definition sniffed (picture : FileStorage) : pystr :=
  from_buffer (fst (stream_read 2048 picture)).

(** The [for picture in form_pictures] loop, [saved_filenames] being the
    list built so far. The position a candidate's stream is left at is not
    read again. *)
Fixpoint save_loop (form_pictures : list FileStorage)
    (saved_filenames : list pystr) (w : World)
    : outcome (list pystr) * World :=
  match form_pictures with
  | [] => (Returns saved_filenames, w)
  | picture :: rest =>
      let (file_head, picture) := stream_read 2048 picture in
      let picture := stream_seek 0 picture in
      let detected_mime := from_buffer file_head in
      if negb (mime_in detected_mime allowed_mimes)
      then (Raises (ValueError (invalid_type_message detected_mime)), w)
      else
        let f_ext := snd (splitext (filename picture)) in
        let (id, w) := uuid4 w in
        let picture_fn := uuid_str id ++ f_ext in
        let picture_path := join UPLOAD_FOLDER picture_fn in
        match save picture picture_path w with
        | (Some e, w) => (Raises e, w)
        | (None, w) => save_loop rest (saved_filenames ++ [picture_fn]) w
        end
  end.

Definition save_pictures (form_pictures : list FileStorage) (w : World)
    : outcome (list pystr) * World :=
  save_loop form_pictures [] w.

End SavePictures.

End FileHandler.


(* ===================================================================== *)
(** * [app/services/chatbot_handler.py] *)
(* ===================================================================== *)

Module Chatbot.

(** ** Python values as [json.loads] builds them *)

(** A [dict] is the list of its items; its keys are distinct strings. *)
#[local] Set Warnings "-register-all".
Inductive pyobj : Type :=
| PNone
| PBool (b : bool)
| PInt (z : Z)
| PFloat (f : float)
| PStr (s : pystr)
| PList (l : list pyobj)
| PDict (items : list (pystr * pyobj)).

(** Truth value of an object, as [if x:] and [not x] take it. *)
Definition truthy (x : pyobj) : bool :=
  match x with
  | PNone => false
  | PBool b => b
  | PInt z => negb (z =? 0)%Z
  | PFloat f => negb (PrimFloat.eqb f 0%float)
  | PStr s => negb (PyStr.eqb s [])
  | PList l => match l with [] => false | _ :: _ => true end
  | PDict d => match d with [] => false | _ :: _ => true end
  end.

Fixpoint lookup_item (k : pystr) (items : list (pystr * pyobj)) : option pyobj :=
  match items with
  | [] => None
  | (k', v) :: rest => if PyStr.eqb k k' then Some v else lookup_item k rest
  end.

(** ** Effects: the requests sent, and exceptions *)

(** A request that leaves the process, with the key and the text sent. *)
Inductive request : Type :=
| SerperSearch (api_key query : pystr)
| GeminiGenerate (api_key prompt : pystr).

(** What [requests.post] comes to: it raises (no connection, time-out,
    ...), or a response arrives with a status code and a body that is a
    JSON document or not, or a response arrives whose body nests deeper
    than the parser can follow when it is read. *)
Inductive http_result : Type :=
| TransportError
| Response (status_code : N) (body : option pyobj)
| ResponseTooDeep (status_code : N).

(** A computation: the requests it has sent, in order, and its outcome. *)
Definition M (A : Type) : Type := list request * outcome A.

Definition ret {A} (a : A) : M A := ([], Returns a).
Definition raise {A} (e : exn) : M A := ([], Raises e).

Definition bind {A B} (m : M A) (k : A -> M B) : M B :=
  match m with
  | (sent, Returns a) => let (sent', r) := k a in (sent ++ sent', r)
  | (sent, Raises e) => (sent, Raises e)
  end.

(** [try: m  except <classes>: h] *)
Definition try_except {A} (m : M A) (caught : exn -> bool) (h : M A) : M A :=
  match m with
  | (sent, Raises e) =>
      if caught e then let (sent', r) := h in (sent ++ sent', r)
      else (sent, Raises e)
  | returned => returned
  end.

Notation "'let*' x ':=' m 'in' k" := (bind m (fun x => k))
  (at level 10, x name, m at level 100, k at level 200).

(** [current_app.config]: a key read from the environment is a string or
    absent. *)
Record Config : Type := {
  SERPER_API_KEY : option pystr;
  GEMINI_API_KEY : option pystr
}.

(** [not key] for a configuration entry *)
Definition not_configured (key : option pystr) : bool :=
  match key with
  | None => true
  | Some k => PyStr.eqb k []
  end.

(** The two services as seen from here: the result each request meets. *)
Record Upstream : Type := {
  serper : pystr -> pystr -> http_result;
  gemini : pystr -> pystr -> http_result
}.

Definition is_RequestException (e : exn) : bool :=
  match e with RequestException => true | _ => false end.

Definition is_generation_failure (e : exn) : bool :=
  match e with RequestException | KeyError | IndexError => true | _ => false end.

(** [resp.raise_for_status()]: [HTTPError], a [RequestException], for the
    4xx and 5xx codes. *)
Definition raise_for_status (resp : http_result) : M unit :=
  match resp with
  | TransportError => raise RequestException
  | Response status_code _ | ResponseTooDeep status_code =>
      if (400 <=? status_code) && (status_code <? 600)
      then raise RequestException else ret tt
  end.

(** [resp.json()]: [requests.exceptions.JSONDecodeError], a
    [RequestException], when the body is no JSON document;
    [RecursionError], which [requests] does not wrap, when the body nests
    too deep. *)
Definition resp_json (resp : http_result) : M pyobj :=
  match resp with
  | Response _ (Some j) => ret j
  | ResponseTooDeep _ => raise RecursionError
  | _ => raise RequestException
  end.

(** [o.get(k, default)]: a method of [dict] only. *)
Definition py_get (o : pyobj) (k : pystr) (default : pyobj) : M pyobj :=
  match o with
  | PDict items =>
      match lookup_item k items with Some v => ret v | None => ret default end
  | _ => raise AttributeError
  end.

(** [o[k]] for a string [k] *)
Definition getitem_key (o : pyobj) (k : pystr) : M pyobj :=
  match o with
  | PDict items =>
      match lookup_item k items with Some v => ret v | None => raise KeyError end
  | _ => raise TypeError
  end.

(** [o[0]]; the keys of a parsed JSON object are strings, so [0] is never
    among them. *)
Definition getitem_0 (o : pyobj) : M pyobj :=
  match o with
  | PList (x :: _) => ret x
  | PList [] => raise IndexError
  | PStr (c :: _) => ret (PStr [c])
  | PStr [] => raise IndexError
  | PDict _ => raise KeyError
  | _ => raise TypeError
  end.

(** [o[:3]]; a [dict] rejects a slice, with [TypeError] or [KeyError] by
    the version of Python. *)
Definition slice_3 (o : pyobj) : M (list pyobj) :=
  match o with
  | PList l => ret (firstn 3 l)
  | PStr s => ret (map (fun c => PStr [c]) (firstn 3 s))
  | PDict _ => raise SliceOfDictError
  | _ => raise TypeError
  end.

(** [j["candidates"][0]["content"]["parts"][0]["text"]] *)
Definition first_candidate_text (j : pyobj) : M pyobj :=
  let* candidates := getitem_key j (u "candidates") in
  let* candidate := getitem_0 candidates in
  let* content := getitem_key candidate (u "content") in
  let* parts := getitem_key content (u "parts") in
  let* part := getitem_0 parts in
  getitem_key part (u "text").

Definition apology : pystr :=
  u "Maaf, sepertinya Putri sedang mengalami sedikit kendala teknis. Coba lagi beberapa saat lagi ya! " ++ [128546].

Definition missing_gemini_key_text : pystr :=
  u "Error: Kunci API Gemini belum dikonfigurasi.".

Definition no_search_flag : pystr := u "./skip".

(** The prompt of the branch without search results. *)
Definition direct_prompt (user_query : pystr) : pystr :=
  u "Kamu adalah Putri, asisten virtual yang ramah, ceria, imut, dan lembut untuk platform wisata Lelana.id. " ++
  u "Kamu seperti cewek Indonesia yang baik hati, selalu hangat dan penuh perhatian ke pengguna, bikin mereka ngerasa nyaman kayak lagi chatting sama sahabat dekat di WhatsApp. " ++
  u "Jawab semua pertanyaan dalam bahasa Indonesia sepenuhnya, dengan gaya bicara manja tapi profesional: pakai paragraf pendek yang terstruktur, mudah dibaca, tambahin emoji lucu kalau pas aja, dan selalu tekankan info wisata yang akurat. " ++
  u "Kalau pengetahuanmu terbatas, bilang jujur dan saranin cari info lebih lanjut, jangan ngawur atau tambah cerita yang gak perlu. " ++
  u "Jawab pertanyaan berikut se-informatif dan seakurat mungkin berdasarkan pengetahuan umum kamu: " ++ [34] ++ user_query ++ [34].

(** The prompt of the branch with search results. *)
Definition augmented_prompt (summary user_query : pystr) : pystr :=
  u "Kamu adalah Putri, asisten virtual yang ramah, ceria, imut, dan lembut untuk platform wisata Lelana.id." ++ [10] ++
  u "Kamu seperti cewek Indonesia yang baik hati, selalu bucin ke pengguna dengan perhatian penuh, bikin mereka ngerasa spesial kayak prioritas utama. " ++
  u "Jawab semua dalam bahasa Indonesia sepenuhnya, gaya bicara manja, hangat, mudah dibaca: pakai paragraf pendek yang terstruktur kayak chatting di WhatsApp, tambahin emoji lucu kalau pas aja, tapi tetep informatif dan sopan." ++ [10] ++
  u "Berikut adalah beberapa informasi relevan dari web terkait pertanyaan pengguna, gunakan ini sebagai referensi utama tapi crosscheck kebenarannya dengan pengetahuan umum kamu:" ++ [10] ++ [10] ++
  summary ++ [10] ++ [10] ++
  u "Berdasarkan informasi tersebut, improve dan jawab pertanyaan berikut dengan 100% sesuai konteks: kalau ada yang gak akurat di summary, koreksi dengan info yang bener, jangan tambah-tambah yang gak relevan, dan selalu fokus ke wisata Lelana.id: " ++ [34] ++ user_query ++ [34] ++ u ". " ++
  u "Kalau info dari web kurang lengkap, tambahin dari pengetahuanmu tapi bilang sumbernya jujur ya!".

Section Orchestrator.
Variable config : Config.
Variable upstream : Upstream.
(** [str(v)] for a value that is not a string, as an f-string field
    shows it. *)
Variable py_repr : pyobj -> pystr.

(** [requests.post] to the search service *)
Definition post_serper (api_key query : pystr) : M http_result :=
  ([SerperSearch api_key query], Returns (serper upstream api_key query)).

(** [requests.post] to the generation service *)
Definition post_gemini (api_key prompt : pystr) : M http_result :=
  ([GeminiGenerate api_key prompt], Returns (gemini upstream api_key prompt)).

Definition search_web (query : pystr) : M pyobj :=
  let serper_api_key := SERPER_API_KEY config in
  if not_configured serper_api_key then ret (PList [])
  else
    try_except
      (let* resp := post_serper (default [] serper_api_key) query in
       let* _ := raise_for_status resp in
       let* data := resp_json resp in
       py_get data (u "organic") (PList []))
      is_RequestException
      (ret (PList [])).

Definition call_gemini (prompt : pystr) : M pyobj :=
  let gemini_api_key := GEMINI_API_KEY config in
  if not_configured gemini_api_key then ret (PStr missing_gemini_key_text)
  else
    try_except
      (let* resp := post_gemini (default [] gemini_api_key) prompt in
       let* _ := raise_for_status resp in
       let* j := resp_json resp in
       first_candidate_text j)
      is_generation_failure
      (ret PNone).

(** An f-string field *)
Definition format_field (v : pyobj) : pystr :=
  match v with
  | PStr s => s
  | _ => py_repr v
  end.

(** The [for item in search_results[:3]] loop *)
Fixpoint summarize (items : list pyobj) (summary : pystr) : M pystr :=
  match items with
  | [] => ret summary
  | item :: rest =>
      let* t := py_get item (u "title") (PStr []) in
      let* s := py_get item (u "snippet") (PStr []) in
      summarize rest
        (summary ++ u "- " ++ format_field t ++ u ": " ++ format_field s ++ [10])
  end.

(** [get_bot_response] up to the call of the model: the flag, the
    search and the prompt. *)
Definition build_prompt (user_query : pystr) : M pystr :=
  let* qs := (if contains no_search_flag user_query
         then ret (strip (replace no_search_flag [] user_query), PList [])
         else
           let* search_results := search_web user_query in
           ret (user_query, search_results)) in
  let user_query := fst qs in
  let search_results := snd qs in
  if negb (truthy search_results)
  then ret (direct_prompt user_query)
  else
    let* top := slice_3 search_results in
    let* summary := summarize top [] in
    ret (augmented_prompt summary user_query).

Definition get_bot_response (user_query : pystr) : M pystr :=
  let* prompt := build_prompt user_query in
  let* answer := call_gemini prompt in
  match answer with
  | PNone => ret apology
  | PStr text => ret (strip text)
  | _ => raise AttributeError
  end.

End Orchestrator.

End Chatbot.

(* ===================================================================== *)
(** * What the statements below speak of *)
(* ===================================================================== *)

Import PosixPath Uuid FileHandler.

(** The sniffed type of a candidate is one of the allowed three. *)
Definition allowed (from_buffer : list byte -> pystr) (picture : FileStorage) : bool :=
  mime_in (sniffed from_buffer picture) allowed_mimes.

(** The extension [save_pictures] keeps: that of the client's file name. *)
Definition extension_of (picture : FileStorage) : pystr :=
  snd (splitext (filename picture)).

(** [name] is the text of a version-4 UUID followed by the extension of the
    candidate's file name. *)
Definition generated_name (picture : FileStorage) (name : pystr) : Prop :=
  exists random, name = uuid_str (uuid4_int random) ++ extension_of picture.

(** The disk after the listed candidates have been written, in order, each
    whole and under its listed name in [folder]. *)
Definition write_all (folder : pystr) (files : list (FileStorage * pystr))
    (d : gmap pystr (list byte)) : gmap pystr (list byte) :=
  fold_left (fun d pn => <[join folder (snd pn) := stream (fst pn)]> d) files d.

(** The naming pattern of the interface description,
    [^[0-9a-f-]{36}\.(jpg|jpeg|png|gif)$], as a test on a whole name:
    36 characters of the class, a dot, one of the four extensions, whose
    letters may be of either case ("case per original extension"). *)
Definition hexdash (c : N) : bool :=
  ((48 <=? c) && (c <=? 57)) || ((97 <=? c) && (c <=? 102)) || (c =? 45).

Definition pattern_extensions : list pystr :=
  [u "jpg"; u "jpeg"; u "png"; u "gif"].

(** A capital letter of ASCII made small. *)
Definition lower_ascii (c : N) : N :=
  if (65 <=? c) && (c <=? 90) then c + 32 else c.

Definition stored_name_pattern (s : pystr) : bool :=
  (length (firstn 36 s) =? 36)%nat && forallb hexdash (firstn 36 s) &&
  match skipn 36 s with
  | c :: e => (c =? 46) && existsb (PyStr.eqb (map lower_ascii e)) pattern_extensions
  | [] => false
  end.

(** The extensions, dot included, that the naming pattern admits. *)
Definition dotted_pattern_extensions : list pystr :=
  [u ".jpg"; u ".jpeg"; u ".png"; u ".gif"].

(** A candidate's generated name has the shape the guard gives it: 36
    characters of [0-9a-f-], then the extension of the client's file name
    as it was sent; it follows the naming pattern exactly when that
    extension, the case of its letters aside, is one of [.jpg], [.jpeg],
    [.png], [.gif]. *)
Definition stored_name_of (picture : FileStorage) (name : pystr) : Prop :=
  exists id,
    name = id ++ extension_of picture /\
    length id = 36%nat /\ forallb hexdash id = true /\
    (stored_name_pattern name = true <->
     In (map lower_ascii (extension_of picture)) dotted_pattern_extensions).

(** What opening the destination answers for a generated name, by the
    extension it ends in: the 36 characters before it take a byte each. *)
Definition extension_error (ext : pystr) : option exn :=
  if existsb (N.eqb 0) ext then Some (ValueError (u "embedded null byte"))
  else if NAME_MAX <? 36 + utf8_length ext then Some OSError
  else None.

(** The candidate's generated name can be opened. *)
Definition storable (picture : FileStorage) : bool :=
  match extension_error (extension_of picture) with
  | None => true
  | Some _ => false
  end.

(** The world after a turn of the loop whose file could not be opened: the
    identifier has been drawn, nothing is written. *)
Definition refused_world (w : World) : World :=
  {| disk := disk w; entropy := entropy w; drawn := S (drawn w) |}.

(** The names the loop makes for the candidates listed, from the [n]-th
    draw of the random source on. *)
Fixpoint names_from (draws : nat -> N) (n : nat) (pictures : list FileStorage)
    : list pystr :=
  match pictures with
  | [] => []
  | p :: rest =>
      (uuid_str (uuid4_int (draws n)) ++ extension_of p) :: names_from draws (S n) rest
  end.

(** The name and the world of one turn of the loop that accepts. *)
Definition turn_name (picture : FileStorage) (w : World) : pystr :=
  uuid_str (uuid4_int (entropy w (drawn w))) ++ extension_of picture.

Definition turn_world (folder : pystr) (picture : FileStorage) (w : World) : World :=
  {| disk := <[join folder (turn_name picture w) := stream picture]> (disk w);
     entropy := entropy w;
     drawn := S (drawn w) |}.

Import Chatbot.

(** The queries of the search requests among the requests sent. *)
Definition searches (sent : list request) : list pystr :=
  flat_map (fun r => match r with SerperSearch _ q => [q] | _ => [] end) sent.

(** The status codes [raise_for_status] turns into an error. *)
Definition error_status (status_code : N) : bool :=
  (400 <=? status_code) && (status_code <? 600).

(** The search call fails: no response, or a response with an error
    status. *)
Definition search_failed (r : http_result) : bool :=
  match r with
  | TransportError => true
  | Response status_code _ | ResponseTooDeep status_code => error_status status_code
  end.

(** The places of the answer text in the generation service's document:
    [candidates[0].content.parts[0].text]. *)
Inductive place : Type :=
| Key (k : pystr)
| First.

Definition expected_places : list place :=
  [Key (u "candidates"); First; Key (u "content"); Key (u "parts"); First;
   Key (u "text")].

(** Along the expected places, an object lacks the expected key or an array
    has no first element. *)
Fixpoint lacks (places : list place) (j : pyobj) : bool :=
  match places with
  | [] => false
  | Key k :: rest =>
      match j with
      | PDict items =>
          match lookup_item k items with
          | None => true
          | Some v => lacks rest v
          end
      | _ => false
      end
  | First :: rest =>
      match j with
      | PList [] => true
      | PList (x :: _) => lacks rest x
      | _ => false
      end
  end.

(** The generation call fails: no response, an error status, a body that is
    no JSON document, or a document that lacks an expected key. *)
Definition generation_failed (r : http_result) : bool :=
  match r with
  | TransportError => true
  | Response status_code body =>
      error_status status_code ||
      match body with
      | None => true
      | Some j => lacks expected_places j
      end
  | ResponseTooDeep status_code => error_status status_code
  end.

(** Along the expected places, a value is met that cannot be indexed the
    way its place asks: something other than an object where a key is
    looked up, or a number, a truth value or [null] where the first
    element is taken. (A text yields its first character; an object asked
    for its element [0] lacks that key.) *)
Fixpoint mistyped (places : list place) (j : pyobj) : bool :=
  match places with
  | [] => false
  | Key k :: rest =>
      match j with
      | PDict items =>
          match lookup_item k items with
          | None => false
          | Some v => mistyped rest v
          end
      | _ => true
      end
  | First :: rest =>
      match j with
      | PList [] | PStr [] | PDict _ => false
      | PList (x :: _) => mistyped rest x
      | PStr (c :: _) => mistyped rest (PStr [c])
      | _ => true
      end
  end.

(** The generation call succeeds with [text]. *)
Definition generated (r : http_result) (text : pystr) : Prop :=
  exists status_code j,
    r = Response status_code (Some j) /\ error_status status_code = false /\
    first_candidate_text j = ret (PStr text).

(** A search result as [get_bot_response] shows it in the prompt. *)
Definition summary_line (py_repr : pyobj -> pystr) (item : list (pystr * pyobj)) : pystr :=
  u "- " ++ format_field py_repr (default (PStr []) (lookup_item (u "title") item)) ++
  u ": " ++ format_field py_repr (default (PStr []) (lookup_item (u "snippet") item)) ++
  [10].

(** The pieces of a text put together again with [mark] between each
    two. *)
Fixpoint join_with (mark : pystr) (pieces : list pystr) : pystr :=
  match pieces with
  | [] => []
  | [t] => t
  | t :: rest => t ++ mark ++ join_with mark rest
  end.

(** A text of white space only. *)
Definition blank (s : pystr) : bool := forallb isspace s.

(** A computation that sends nothing. *)
Definition silent {A} (m : M A) : Prop := fst m = [].

(* ===================================================================== *)
(** * Worked inputs *)
(* ===================================================================== *)

(** A stand-in for libmagic on four kinds of content: the JPEG, PNG and
    GIF signatures, and everything else reported as plain text. *)
Definition magic_numbers (buf : list byte) : pystr :=
  match buf with
  | xff :: xd8 :: xff :: _ => u "image/jpeg"
  | x89 :: x50 :: x4e :: x47 :: x0d :: x0a :: x1a :: x0a :: _ => u "image/png"
  | x47 :: x49 :: x46 :: x38 :: _ => u "image/gif"
  | _ => u "text/plain"
  end.

Definition uploads : pystr := u "/srv/lelana/app/static/uploads".

Definition jpeg_bytes : list byte :=
  [xff; xd8; xff; xe0; x00; x10; x4a; x46; x49; x46; x00; x01].

Definition text_bytes : list byte := [x68; x61; x6c; x6f; x0a].

Definition photo_jpg : FileStorage :=
  {| filename := u "photo.jpg"; stream := jpeg_bytes; pos := 0 |}.

Definition photo_JPG : FileStorage :=
  {| filename := u "photo.JPG"; stream := jpeg_bytes; pos := 0 |}.

Definition photo_bmp : FileStorage :=
  {| filename := u "photo.bmp"; stream := jpeg_bytes; pos := 0 |}.

(** A JPEG whose file name holds a NUL in its extension. *)
Definition nul_png : FileStorage :=
  {| filename := u "a.p" ++ [0] ++ u "ng"; stream := jpeg_bytes; pos := 0 |}.

Definition holiday_png : FileStorage :=
  {| filename := u "holiday.png"; stream := jpeg_bytes; pos := 0 |}.

Definition dot_png : FileStorage :=
  {| filename := u ".png"; stream := jpeg_bytes; pos := 0 |}.

Definition notes_txt : FileStorage :=
  {| filename := u "notes.txt"; stream := text_bytes; pos := 0 |}.

(** An empty upload directory and a random source. *)
Definition fresh_world : World :=
  {| disk := ∅;
     entropy := fun n => 0x1f0e2d3c4b5a69788796a5b4c3d2e1f0 + N.of_nat n;
     drawn := 0 |}.

Definition first_uuid : pystr := u "1f0e2d3c-4b5a-4978-8796-a5b4c3d2e1f0".

Definition both_keys : Config :=
  {| SERPER_API_KEY := Some (u "serper-key"); GEMINI_API_KEY := Some (u "gemini-key") |}.

Definition no_keys : Config :=
  {| SERPER_API_KEY := None; GEMINI_API_KEY := None |}.

Definition gemini_key_only : Config :=
  {| SERPER_API_KEY := None; GEMINI_API_KEY := Some (u "gemini-key") |}.

(** The generation service's document around an answer text. *)
Definition gemini_document (text : pystr) : pyobj :=
  PDict [(u "candidates",
          PList [PDict [(u "content",
                         PDict [(u "parts", PList [PDict [(u "text", PStr text)]])])]])].

Definition search_hit (title snippet : string) : list (pystr * pyobj) :=
  [(u "title", PStr (u title)); (u "snippet", PStr (u snippet));
   (u "link", PStr (u "https://example.org/"))].

Definition five_hits : list (list (pystr * pyobj)) :=
  [search_hit "Pantai Kuta" "Pantai di Bali"; search_hit "Ubud" "Sawah dan seni";
   search_hit "Tanah Lot" "Pura di atas karang"; search_hit "Nusa Penida" "Tebing";
   search_hit "Sanur" "Matahari terbit"].

(** Both services unreachable. *)
Definition offline : Upstream :=
  {| serper := fun _ _ => TransportError; gemini := fun _ _ => TransportError |}.

(** The search unreachable, the model answering with [text]. *)
Definition search_down (text : pystr) : Upstream :=
  {| serper := fun _ _ => TransportError;
     gemini := fun _ _ => Response 200 (Some (gemini_document text)) |}.

(** The search finding five results, the model's document without
    candidates. *)
Definition five_results_no_candidates : Upstream :=
  {| serper := fun _ _ =>
       Response 200 (Some (PDict [(u "organic", PList (map PDict five_hits))]));
     gemini := fun _ _ => Response 200 (Some (PDict [(u "candidates", PList [])])) |}.

(** The search answering with a JSON array, the model unreachable. *)
Definition search_answers_array : Upstream :=
  {| serper := fun _ _ => Response 200 (Some (PList []));
     gemini := fun _ _ => TransportError |}.

Definition repr_unused : pyobj -> pystr := fun _ => [].

Definition bali : pystr := u "pantai di Bali".

Definition bali_skip : pystr := u "./skip pantai di Bali ./skip ".

(* ===================================================================== *)
(** * [app/routes/chatbot_routes.py] *)
(* ===================================================================== *)

Module ChatbotRoutes.

(** What the view returns: [jsonify(body), status_code]. *)
Record reply : Type := {
  status_code : N;
  body : pyobj
}.

Definition empty_query_error : pyobj :=
  PDict [(u "error", PStr (u "Pertanyaan tidak boleh kosong."))].

Section AskPutri.
Variable config : Config.
Variable upstream : Upstream.
Variable py_repr : pyobj -> pystr.
(** [get_bot_response] on a list or an object: such a query goes on to the
    search service as it is, which the requests above, with their text
    queries, do not describe. *)
Variable get_bot_response_container : pyobj -> M pystr.

(** [get_bot_response(user_query)] for whatever the request held: a number
    or a truth value fails the [no_search_flag in user_query] test with
    [TypeError]. *)
Definition respond (user_query : pyobj) : M pystr :=
  match user_query with
  | PStr q => get_bot_response config upstream py_repr q
  | PList _ | PDict _ => get_bot_response_container user_query
  | _ => raise TypeError
  end.

(** [ask_putri], [data] being what [request.get_json()] returned. *)
Definition ask_putri (data : pyobj) : M reply :=
  let* user_query := py_get data (u "query") PNone in
  if negb (truthy user_query)
  then ret {| status_code := 400; body := empty_query_error |}
  else
    let* bot_response := respond user_query in
    ret {| status_code := 200;
           body := PDict [(u "response", PStr bot_response)] |}.

End AskPutri.

End ChatbotRoutes.

(* ===================================================================== *)
(** * [app/routes/wisata_routes.py]: a review with photos *)
(* ===================================================================== *)

Module WisataRoutes.

(** A [Review] as the view builds it; the author and the place stand for
    the objects [current_user] and [w]. *)
Record Review : Type := {
  rating : Z;
  komentar : pystr;
  author : N;
  wisata_reviewed : N
}.

(** The objects the view hands to the data base session. *)
Inductive entity : Type :=
| ReviewRow (r : Review)
| FotoUlasan (nama_file : pystr) (review : Review).

(** [db.session]: the objects added since the last commit, and the rows
    committed. A commit is taken to succeed. *)
Record Session : Type := {
  pending : list entity;
  stored : list entity
}.

Definition session_add (e : entity) (s : Session) : Session :=
  {| pending := pending s ++ [e]; stored := stored s |}.

Definition session_rollback (s : Session) : Session :=
  {| pending := []; stored := stored s |}.

Definition session_commit (s : Session) : Session :=
  {| pending := []; stored := stored s ++ pending s |}.

(** What the view acts on: the disk and the random source, the session,
    and the messages flashed, each with its category. *)
Record Site : Type := {
  world : World;
  session : Session;
  flashed : list (pystr * pystr)
}.

(** The fields of a validated [ReviewForm]. *)
Record ReviewForm : Type := {
  form_rating : Z;
  form_komentar : pystr;
  form_foto : list FileStorage
}.

(** [form.foto.data and form.foto.data[0].filename] *)
Definition has_upload (foto : list FileStorage) : bool :=
  match foto with
  | [] => false
  | first :: _ => negb (PyStr.eqb (filename first) [])
  end.

Definition thanks : pystr * pystr :=
  (u "Terima kasih! Review Anda telah ditambahkan.", u "success").

Definition upload_failed (e : pystr) : pystr * pystr :=
  (u "Gagal mengunggah: " ++ e, u "danger").

Definition unexpected_error : pystr * pystr :=
  (u "Terjadi kesalahan internal yang tidak terduga. Tim kami telah diberitahu.",
   u "danger").

Section DetailWisata.
Variable from_buffer : list byte -> pystr.
Variable UPLOAD_FOLDER : pystr.
(** [app.utils.text_filters.censor_text] is not among the sources. *)
Variable censor_text : pystr -> pystr.

(** The [for filename in filenames] loop. *)
Definition add_photos (filenames : list pystr) (review_baru : Review)
    (s : Session) : Session :=
  fold_left (fun s filename => session_add (FotoUlasan filename review_baru) s)
    filenames s.

(** [detail_wisata] on the branch of a valid form sent by a signed-in user,
    for the place [w] found: the review is added, the photos are saved and
    added, and all is committed, or the session is rolled back. Every path
    of the branch ends in the same redirect. Adding to the session raises
    nothing here, so the handler of [SQLAlchemyError] has nothing to catch;
    the last handler stands for [except Exception]. *)
Definition detail_wisata (current_user w : N) (form : ReviewForm) (site : Site) : Site :=
  let review_baru :=
    {| rating := form_rating form;
       komentar := censor_text (form_komentar form);
       author := current_user;
       wisata_reviewed := w |} in
  let s := session_add (ReviewRow review_baru) (session site) in
  if has_upload (form_foto form) then
    match save_pictures from_buffer UPLOAD_FOLDER (form_foto form) (world site) with
    | (Returns filenames, world') =>
        {| world := world';
           session := session_commit (add_photos filenames review_baru s);
           flashed := flashed site ++ [thanks] |}
    | (Raises (ValueError e), world') =>
        {| world := world';
           session := session_rollback s;
           flashed := flashed site ++ [upload_failed e] |}
    | (Raises _, world') =>
        {| world := world';
           session := session_rollback s;
           flashed := flashed site ++ [unexpected_error] |}
    end
  else
    {| world := world site;
       session := session_commit s;
       flashed := flashed site ++ [thanks] |}.

End DetailWisata.

End WisataRoutes.

(* ===================================================================== *)
(** * More to speak of *)
(* ===================================================================== *)

Import ChatbotRoutes WisataRoutes.

(** Two candidates with the same file name whose streams yield the same
    first 2048 bytes. *)
Definition same_head (p q : FileStorage) : Prop :=
  filename p = filename q /\ fst (stream_read 2048 p) = fst (stream_read 2048 q).

(** An extension as [os.path.splitext] gives it: nothing, or a dot and then
    characters that are neither dots nor separators. *)
Definition extension_shaped (ext : pystr) : Prop :=
  ext = [] \/ exists e, ext = extsep :: e /\ ~ In extsep e /\ ~ In sep e.

(** No white space at either end. *)
Definition trimmed (s : pystr) : Prop := lstrip s = s /\ rstrip s = s.


(** A quiet site: the fresh world, nothing in the session, nothing
    flashed. *)
Definition fresh_site : Site :=
  {| world := fresh_world;
     session := {| pending := []; stored := [] |};
     flashed := [] |}.

Definition second_uuid : pystr := u "1f0e2d3c-4b5a-4978-8796-a5b4c3d2e1f1".

(** A JPEG with a long tail behind its first 2048 bytes, and the same with
    another tail. *)
Definition padded (tail : list byte) : FileStorage :=
  {| filename := u "big.jpg";
     stream := jpeg_bytes ++ repeat x00 2036 ++ tail;
     pos := 0 |}.

(** A JPEG sent under a name that climbs out of the folder. *)
Definition climbing_png : FileStorage :=
  {| filename := u "../../etc/cron.d/x.png"; stream := jpeg_bytes; pos := 0 |}.

(** The search answering without an [organic] entry, the model's document
    holding [null] where its candidates should be. *)
Definition no_organic_null_candidates : Upstream :=
  {| serper := fun _ _ =>
       Response 200 (Some (PDict [(u "searchParameters", PDict [])]));
     gemini := fun _ _ => Response 200 (Some (PDict [(u "candidates", PNone)])) |}.

(** The generation service's document with [null] as its text. *)
Definition null_text_document : pyobj :=
  PDict [(u "candidates",
          PList [PDict [(u "content",
                         PDict [(u "parts", PList [PDict [(u "text", PNone)]])])]])].

(** The search unreachable, the model answering with that document. *)
Definition null_text : Upstream :=
  {| serper := fun _ _ => TransportError;
     gemini := fun _ _ => Response 200 (Some null_text_document) |}.

Definition container_unused : pyobj -> M pystr := fun _ => raise TypeError.

(** A review form with the given photos. *)
Definition review_with (foto : list FileStorage) : ReviewForm :=
  {| form_rating := 5; form_komentar := u "Bagus sekali"; form_foto := foto |}.

Definition censor_nothing : pystr -> pystr := fun text => text.

(** The photo rows of a review, one for each name. *)
Definition photo_rows (r : Review) (names : list pystr) : list entity :=
  map (fun n => FotoUlasan n r) names.

(** The search finding three results and, fourth, a string. *)
Definition junk_fourth : Upstream :=
  {| serper := fun _ _ =>
       Response 200
         (Some (PDict [(u "organic",
                        PList (map PDict (firstn 3 five_hits) ++ [PStr (u "junk")]))]));
     gemini := fun _ _ => TransportError |}.

(** The search finding one result and, second, [null]. *)
Definition null_second : Upstream :=
  {| serper := fun _ _ =>
       Response 200
         (Some (PDict [(u "organic",
                        PList (map PDict (firstn 1 five_hits) ++ [PNone]))]));
     gemini := fun _ _ => TransportError |}.

(* ===================================================================== *)
(** * Strings and paths *)
(* ===================================================================== *)

Section StringFacts.

Lemma eqb_eq (a b : pystr) : PyStr.eqb a b = true <-> a = b.
Proof. unfold PyStr.eqb. apply bool_decide_eq_true. Qed.

Lemma startswith_spec (p s : pystr) :
  startswith p s = true <-> exists t, s = p ++ t.
Proof.
  revert s. induction p as [|a p IH]; intros s; simpl.
  - split; [intros _; now exists s | reflexivity].
  - destruct s as [|b s]; [split; [discriminate | intros [t Ht]; discriminate] |].
    rewrite andb_true_iff, N.eqb_eq, IH. split.
    + intros [-> [t ->]]. now exists t.
    + intros [t Ht]. injection Ht as -> ->. split; [reflexivity | now exists t].
Qed.

Lemma startswith_app (p s t : pystr) :
  startswith p s = true -> startswith p (s ++ t) = true.
Proof.
  rewrite !startswith_spec. intros [r ->]. exists (r ++ t). now rewrite app_assoc.
Qed.

Lemma contains_split (p s : pystr) :
  contains p s = true -> exists a b, s = a ++ p ++ b.
Proof.
  induction s as [|c s IH]; simpl; rewrite orb_true_iff.
  - intros [H | H]; [| discriminate].
    apply startswith_spec in H as [t Ht]. now exists [], t.
  - intros [H | H].
    + apply startswith_spec in H as [t Ht]. now exists [], t.
    + destruct (IH H) as (a & b & ->). now exists (c :: a), b.
Qed.

Lemma rfind_absent (c : N) (s : pystr) : ~ In c s -> rfind c s = (-1)%Z.
Proof.
  induction s as [|x s IH]; simpl; [reflexivity |].
  intros H. rewrite IH by tauto. simpl.
  destruct (N.eqb_spec x c); [tauto | reflexivity].
Qed.

Lemma rfind_bounds (c : N) (s : pystr) :
  (-1 <= rfind c s < Z.of_nat (length s))%Z.
Proof.
  induction s as [|x s IH]; simpl length; simpl rfind; [lia |].
  destruct (Z.leb_spec 0 (rfind c s)); [lia |].
  destruct (x =? c); lia.
Qed.

Lemma rfind_app_absent (c : N) (a b : pystr) :
  ~ In c b -> rfind c (a ++ b) = rfind c a.
Proof.
  intros H. induction a as [|x a IH]; simpl.
  - now apply rfind_absent.
  - now rewrite IH.
Qed.

Lemma rfind_last (c : N) (a b : pystr) :
  ~ In c b -> rfind c (a ++ c :: b) = Z.of_nat (length a).
Proof.
  intros H. induction a as [|x a IH]; simpl app; simpl rfind.
  - rewrite rfind_absent by assumption. simpl. now rewrite N.eqb_refl.
  - rewrite IH. destruct (Z.leb_spec 0 (Z.of_nat (length a))); simpl length; lia.
Qed.

Lemma has_stem_found (p : pystr) (n start i : nat) :
  (start <= i < start + n)%nat -> nth i p 0 <> extsep ->
  has_stem p start n = true.
Proof.
  revert start. induction n as [|n IH]; intros start Hi Hc; [lia |].
  simpl. destruct (N.eqb_spec (nth start p 0) extsep) as [E | E]; [| reflexivity].
  simpl. apply IH; [| assumption].
  assert (start <> i) by (intros ->; contradiction). lia.
Qed.

(** The extension is what follows the last dot, when the last path
    component has a character other than the dot before it. *)
Lemma splitext_stem (dir tail ext : pystr) (c : N) :
  c <> extsep -> c <> sep -> ~ In sep tail -> ~ In sep ext -> ~ In extsep ext ->
  splitext (dir ++ c :: tail ++ extsep :: ext)
  = (dir ++ c :: tail, extsep :: ext).
Proof.
  intros Hc1 Hc2 Htail Hsep Hdot. unfold splitext.
  set (p := dir ++ c :: tail ++ extsep :: ext).
  assert (Hp : p = (dir ++ c :: tail) ++ extsep :: ext)
    by (unfold p; now rewrite <- app_assoc).
  assert (Hdi : rfind extsep p = Z.of_nat (length (dir ++ c :: tail)))
    by (rewrite Hp; now apply rfind_last).
  assert (Hsi : rfind sep p = rfind sep dir).
  { unfold p. apply rfind_app_absent. intros [E | H]; [congruence |].
    apply in_app_or in H as [H | [E | H]]; [tauto | | tauto].
    unfold sep, extsep in E. discriminate. }
  rewrite Hdi, Hsi. pose proof (rfind_bounds sep dir) as Hb.
  rewrite length_app in *. simpl length in *.
  replace (_ <? _)%Z with true by (symmetry; apply Z.ltb_lt; lia).
  rewrite (has_stem_found p _ _ (length dir)).
  - simpl. rewrite Hp.
    replace (Z.to_nat _) with (length (dir ++ c :: tail))
      by (rewrite length_app; simpl; lia).
    now rewrite take_app_length, drop_app_length.
  - lia.
  - unfold p. rewrite app_nth2 by lia. now rewrite Nat.sub_diag.
Qed.

End StringFacts.

(* ===================================================================== *)
(** * Generated names *)
(* ===================================================================== *)

Section NameFacts.

Lemma hexdash_hexdigit (d : N) : d < 16 -> hexdash (hexdigit d) = true.
Proof.
  intros Hd. unfold hexdash, hexdigit.
  destruct (N.ltb_spec d 10).
  - replace (48 <=? 48 + d) with true by (symmetry; apply N.leb_le; lia).
    replace (48 + d <=? 57) with true by (symmetry; apply N.leb_le; lia).
    reflexivity.
  - replace (97 <=? 87 + d) with true by (symmetry; apply N.leb_le; lia).
    replace (87 + d <=? 102) with true by (symmetry; apply N.leb_le; lia).
    now rewrite orb_true_r.
Qed.

Lemma hex32_length (n : N) : length (hex32 n) = 32%nat.
Proof. unfold hex32. now rewrite length_map, length_seq. Qed.

Lemma hex32_hexdash (n : N) : Forall (fun c => hexdash c = true) (hex32 n).
Proof.
  unfold hex32. apply List.Forall_forall. intros c Hc.
  apply List.in_map_iff in Hc as (i & <- & _).
  apply hexdash_hexdigit, N.mod_lt. discriminate.
Qed.

Lemma uuid_str_length (n : N) : length (uuid_str n) = 36%nat.
Proof.
  unfold uuid_str. pose proof (hex32_length n) as H.
  repeat rewrite ?length_app, ?length_take, ?length_drop. rewrite H. reflexivity.
Qed.

Lemma uuid_str_hexdash (n : N) : forallb hexdash (uuid_str n) = true.
Proof.
  apply forallb_forall, List.Forall_forall. unfold uuid_str.
  pose proof (hex32_hexdash n) as H.
  repeat first
    [ apply Forall_app; split
    | apply Forall_take
    | apply Forall_drop
    | assumption
    | reflexivity
    | constructor ].
Qed.

Lemma lower_ascii_dot (c : N) : lower_ascii c = 46 <-> c = 46.
Proof.
  unfold lower_ascii.
  destruct (N.leb_spec 65 c); destruct (N.leb_spec c 90); simpl; lia.
Qed.

(** A name made of 36 such characters and an extension follows the naming
    pattern exactly when the extension, the case of its letters aside, is
    one of the pattern's four. *)
Lemma pattern_iff_extension (id ext : pystr) :
  length id = 36%nat -> forallb hexdash id = true ->
  stored_name_pattern (id ++ ext) = true
  <-> In (map lower_ascii ext) dotted_pattern_extensions.
Proof.
  intros Hlen Hhex. unfold stored_name_pattern.
  rewrite <- Hlen at 1 2 3 4. rewrite take_app_length, drop_app_length.
  rewrite Hlen, Hhex, Nat.eqb_refl. cbn [andb].
  destruct ext as [|c e].
  - split; [discriminate |]. simpl. intros H.
    repeat destruct H as [H | H]; try discriminate; contradiction.
  - rewrite andb_true_iff, N.eqb_eq, List.existsb_exists.
    change dotted_pattern_extensions with (map (cons 46) pattern_extensions).
    change (map lower_ascii (c :: e)) with (lower_ascii c :: map lower_ascii e).
    rewrite in_map_iff. split.
    + intros [-> (x & Hx & Hex)]. apply eqb_eq in Hex. exists x.
      split; [now rewrite Hex | assumption].
    + intros (x & Hex & Hx). injection Hex as Hc He. symmetry in Hc.
      apply (proj1 (lower_ascii_dot c)) in Hc. split; [assumption |].
      exists x. split; [assumption | apply eqb_eq; now symmetry].
Qed.

End NameFacts.

(* ===================================================================== *)
(** * More on paths and names *)
(* ===================================================================== *)

Section PathFacts.

Lemma rfind_negative_absent (c : N) (s : pystr) :
  (rfind c s < 0)%Z -> ~ In c s.
Proof.
  induction s as [|x s IH]; simpl; [tauto |].
  pose proof (rfind_bounds c s) as Hb.
  destruct (Z.leb_spec 0 (rfind c s)) as [Hr | Hr]; [lia |].
  destruct (N.eqb_spec x c) as [Hx | Hx]; [lia |].
  intros _ [E | Hin]; [congruence |]. now apply IH.
Qed.

(** A found character splits the text at its last occurrence. *)
Lemma rfind_split (c : N) (s : pystr) :
  (0 <= rfind c s)%Z ->
  exists a b, s = a ++ c :: b /\ Z.of_nat (length a) = rfind c s /\ ~ In c b.
Proof.
  induction s as [|x s IH]; simpl; [lia |].
  destruct (Z.leb_spec 0 (rfind c s)) as [Hr | Hr].
  - intros _. destruct (IH Hr) as (a & b & -> & Hlen & Hb).
    exists (x :: a), b. simpl length. repeat split; [lia | assumption].
  - destruct (N.eqb_spec x c) as [-> | Hx]; [| lia]. intros _.
    exists [], s. repeat split. now apply rfind_negative_absent.
Qed.

Lemma rfind_present_ge (c : N) (a b : pystr) :
  In c b -> (Z.of_nat (length a) <= rfind c (a ++ b))%Z.
Proof.
  intros Hin. induction a as [|x a IH]; simpl app.
  - pose proof (rfind_bounds c b).
    destruct (Z.ltb_spec (rfind c b) 0) as [H0 | H0]; [| simpl; lia].
    now apply rfind_negative_absent in H0.
  - simpl rfind. simpl length.
    destruct (Z.leb_spec 0 (rfind c (a ++ b))); lia.
Qed.

(** What [os.path.splitext] promises of the extension. *)
Lemma splitext_extension_shaped (p : pystr) : extension_shaped (snd (splitext p)).
Proof.
  unfold splitext.
  destruct ((rfind sep p <? rfind extsep p)%Z && _) eqn:E; [| now left].
  apply andb_true_iff in E as [E _]. apply Z.ltb_lt in E.
  pose proof (rfind_bounds sep p) as Hb.
  destruct (rfind_split extsep p) as (a & b & Hp & Hlen & Hdot); [lia |].
  right. exists b. simpl snd. rewrite <- Hlen, Nat2Z.id.
  rewrite Hp at 1. rewrite drop_app_length. repeat split; [assumption |].
  intros Hsep.
  assert (Hin : In sep (extsep :: b)) by now right.
  pose proof (rfind_present_ge sep a (extsep :: b) Hin) as Hge.
  rewrite <- Hp in Hge. lia.
Qed.

Lemma splitext_joins_back (p : pystr) : fst (splitext p) ++ snd (splitext p) = p.
Proof.
  unfold splitext. destruct (_ && _); simpl; [apply firstn_skipn | apply app_nil_r].
Qed.

Lemma hexdash_not_sep (id : pystr) : forallb hexdash id = true -> ~ In sep id.
Proof.
  intros H Hin. rewrite forallb_forall in H. apply H in Hin. discriminate.
Qed.

Lemma extension_shaped_no_sep (ext : pystr) : extension_shaped ext -> ~ In sep ext.
Proof.
  intros [-> | (e & -> & _ & He)]; [tauto |]. intros [E | H]; [discriminate | tauto].
Qed.

Lemma generated_name_no_sep picture name :
  generated_name picture name -> ~ In sep name.
Proof.
  intros [random ->] H. apply in_app_or in H as [H | H].
  - now apply (hexdash_not_sep _ (uuid_str_hexdash _)) in H.
  - now apply (extension_shaped_no_sep _ (splitext_extension_shaped _)) in H.
Qed.

Lemma no_sep_no_leading_sep (name : pystr) :
  ~ In sep name -> startswith [sep] name = false.
Proof.
  intros H. destruct name as [|c name]; [reflexivity |]. cbn [startswith].
  destruct (N.eqb_spec sep c) as [E | E]; [| reflexivity].
  exfalso. apply H. now left.
Qed.

(** Where [os.path.join] puts a name that has no separator. *)
Lemma join_plain_name (folder name : pystr) :
  ~ In sep name ->
  join folder name
  = folder ++ (if PyStr.eqb folder [] || endswith [sep] folder then [] else [sep]) ++ name.
Proof.
  intros H. unfold join. rewrite no_sep_no_leading_sep by assumption.
  now destruct (_ || _).
Qed.

Lemma join_plain_inj (folder a b : pystr) :
  ~ In sep a -> ~ In sep b -> join folder a = join folder b -> a = b.
Proof.
  intros Ha Hb. rewrite !join_plain_name by assumption.
  intros H. apply app_inv_head in H. now apply app_inv_head in H.
Qed.

Lemma in_zip_r {A B} (x : A) (y : B) (l : list A) (k : list B) :
  In (x, y) (zip l k) -> In y k.
Proof.
  revert k. induction l as [|a l IH]; intros [|b k]; simpl; try tauto.
  intros [[= _ ->] | H]; [now left | right; now apply IH].
Qed.

(** A path that none of the written files has keeps its content. *)
Lemma write_all_other folder files d path :
  (forall pn, In pn files -> join folder (snd pn) <> path) ->
  write_all folder files d !! path = d !! path.
Proof.
  revert d. induction files as [|pn files IH]; intros d H; [reflexivity |].
  change (write_all folder (pn :: files) d)
    with (write_all folder files (<[join folder (snd pn) := stream (fst pn)]> d)).
  rewrite IH by (intros x Hx; apply H; now right).
  apply lookup_insert_ne. apply H. now left.
Qed.

(** Under pairwise different names every written file is found whole. *)
Lemma write_all_found folder pictures names d :
  Forall2 generated_name pictures names -> NoDup names ->
  Forall2 (fun p n => write_all folder (zip pictures names) d
                        !! join folder n = Some (stream p)) pictures names.
Proof.
  intros Hgen. revert d.
  induction Hgen as [|p n pictures names Hp Hgen IH]; intros d Hnd; [constructor |].
  apply NoDup_cons in Hnd as [Hn Hnd].
  assert (Hstep : forall d', write_all folder (zip (p :: pictures) (n :: names)) d'
                  = write_all folder (zip pictures names)
                      (<[join folder n := stream p]> d')) by reflexivity.
  constructor.
  - rewrite Hstep, write_all_other; [apply lookup_insert_eq |].
    intros [q m] Hin E. simpl in E. apply in_zip_r in Hin as Hm.
    assert (Hq : exists q', generated_name q' m).
    { clear - Hgen Hm. induction Hgen as [|q' m' ps ns Hq' _ IH]; [contradiction |].
      destruct Hm as [-> | Hm]; [now exists q' | now apply IH]. }
    destruct Hq as [q' Hq'].
    apply join_plain_inj in E;
      [| now apply (generated_name_no_sep q') | now apply (generated_name_no_sep p)].
    subst m. apply Hn. now apply list_elem_of_In.
  - assert (IH' := IH (<[join folder n := stream p]> d) Hnd).
    eapply Forall2_impl; [exact IH' |]. intros q m Hqm. now rewrite Hstep.
Qed.

Lemma endswith_sep_split (folder : pystr) :
  endswith [sep] folder = true -> exists front, folder = front ++ [sep].
Proof.
  unfold endswith. intros H. apply startswith_spec in H as [t Ht].
  exists (rev t). apply (f_equal (@rev N)) in Ht. rewrite rev_involutive in Ht.
  rewrite Ht. simpl. reflexivity.
Qed.

(** The last component of the path of a name in the folder is the name. *)
Lemma basename_join (folder name : pystr) :
  ~ In sep name -> basename (join folder name) = name.
Proof.
  intros Hname. rewrite join_plain_name by assumption. unfold basename.
  destruct (PyStr.eqb folder []) eqn:Ee.
  - apply eqb_eq in Ee. subst folder. cbn [orb app].
    rewrite rfind_absent by assumption. reflexivity.
  - cbn [orb]. destruct (endswith [sep] folder) eqn:Es.
    + apply endswith_sep_split in Es as [front ->]. cbn [app].
      rewrite <- app_assoc. cbn [app].
      rewrite rfind_last by assumption.
      replace (Z.to_nat (Z.of_nat (length front) + 1)) with (length (front ++ [sep]))
        by (rewrite length_app; simpl; lia).
      change (front ++ sep :: name) with (front ++ [sep] ++ name).
      rewrite app_assoc. apply drop_app_length.
    + change ([sep] ++ name) with (sep :: name).
      rewrite rfind_last by assumption.
      replace (Z.to_nat (Z.of_nat (length folder) + 1)) with (length (folder ++ [sep]))
        by (rewrite length_app; simpl; lia).
      change (folder ++ sep :: name) with (folder ++ [sep] ++ name).
      rewrite app_assoc. apply drop_app_length.
Qed.

Lemma existsb_app {A} (f : A -> bool) (a b : list A) :
  existsb f (a ++ b) = existsb f a || existsb f b.
Proof. induction a as [|x a IH]; simpl; [reflexivity | now rewrite IH, orb_assoc]. Qed.

Lemma utf8_length_app (a b : pystr) :
  utf8_length (a ++ b) = utf8_length a + utf8_length b.
Proof.
  unfold utf8_length. induction a as [|x a IH]; simpl; [reflexivity |].
  rewrite IH. lia.
Qed.

Lemma hexdash_plain (id : pystr) :
  forallb hexdash id = true ->
  existsb (N.eqb 0) id = false /\ utf8_length id = N.of_nat (length id).
Proof.
  induction id as [|c id IH]; [now split |].
  cbn [forallb]. rewrite andb_true_iff. intros [Hc Hid].
  destruct (IH Hid) as [Hz Hl]. cbn [existsb length]. unfold utf8_length in *.
  cbn [fold_right]. rewrite Hz, Hl.
  assert (Hr : 45 <= c <= 102).
  { unfold hexdash in Hc. rewrite !orb_true_iff, !andb_true_iff in Hc.
    rewrite !N.leb_le, N.eqb_eq in Hc. lia. }
  replace (c <? 128) with true by (symmetry; apply N.ltb_lt; lia).
  replace (0 =? c) with false by (symmetry; apply N.eqb_neq; lia).
  split; [reflexivity | lia].
Qed.

(** What opening answers for a generated name in the folder hangs on the
    extension alone. *)
Lemma open_error_generated (folder : pystr) (random : N) (ext : pystr) :
  ~ In sep ext ->
  open_error (join folder (uuid_str (uuid4_int random) ++ ext)) = extension_error ext.
Proof.
  intros Hext. unfold open_error, extension_error.
  pose proof (uuid_str_hexdash (uuid4_int random)) as Hhex.
  destruct (hexdash_plain _ Hhex) as [Hz Hl]. rewrite uuid_str_length in Hl.
  rewrite basename_join.
  - rewrite existsb_app, Hz, utf8_length_app, Hl. reflexivity.
  - intros H. apply in_app_or in H as [H | H]; [| contradiction].
    now apply (hexdash_not_sep _ Hhex) in H.
Qed.

Lemma extension_of_no_sep (picture : FileStorage) : ~ In sep (extension_of picture).
Proof. apply extension_shaped_no_sep, splitext_extension_shaped. Qed.

End PathFacts.

(* ===================================================================== *)
(** * The upload guard *)
(* ===================================================================== *)

Section UploadGuard.
Variable from_buffer : list byte -> pystr.
Variable UPLOAD_FOLDER : pystr.

Let loop := save_loop from_buffer UPLOAD_FOLDER.

(** One turn of the loop: a candidate of another type is refused before
    anything is drawn or written; an allowed one has its name drawn, and
    is written unless the name cannot be opened. *)
Lemma save_loop_cons picture rest acc w :
  loop (picture :: rest) acc w
  = if allowed from_buffer picture
    then match extension_error (extension_of picture) with
         | None => loop rest (acc ++ [turn_name picture w])
                     (turn_world UPLOAD_FOLDER picture w)
         | Some e => (Raises e, refused_world w)
         end
    else (Raises (ValueError (invalid_type_message (sniffed from_buffer picture))), w).
Proof.
  unfold allowed, sniffed, loop, stream_read. cbn [fst].
  cbn [save_loop]. unfold stream_read. cbn beta iota zeta.
  destruct (mime_in _ allowed_mimes); cbn [negb]; [| reflexivity].
  unfold uuid4, save, stream_seek. cbn [filename stream pos disk entropy drawn].
  fold (extension_of picture).
  rewrite open_error_generated by apply extension_of_no_sep.
  destruct (extension_error (extension_of picture)); reflexivity.
Qed.


Lemma storable_no_error picture :
  storable picture = true -> extension_error (extension_of picture) = None.
Proof. unfold storable. now destruct (extension_error _). Qed.

Lemma save_loop_accepted picture rest acc w :
  allowed from_buffer picture = true -> storable picture = true ->
  loop (picture :: rest) acc w
  = loop rest (acc ++ [turn_name picture w]) (turn_world UPLOAD_FOLDER picture w).
Proof.
  intros H Hs. now rewrite save_loop_cons, H, (storable_no_error _ Hs).
Qed.

Lemma save_loop_refused picture rest acc w e :
  allowed from_buffer picture = true ->
  extension_error (extension_of picture) = Some e ->
  loop (picture :: rest) acc w = (Raises e, refused_world w).
Proof. intros H He. now rewrite save_loop_cons, H, He. Qed.

Lemma turn_name_generated picture w : generated_name picture (turn_name picture w).
Proof. now exists (entropy w (drawn w)). Qed.

Lemma generated_name_stored picture name :
  generated_name picture name -> stored_name_of picture name.
Proof.
  intros [random ->]. exists (uuid_str (uuid4_int random)).
  pose proof (uuid_str_length (uuid4_int random)).
  pose proof (uuid_str_hexdash (uuid4_int random)).
  repeat split; try assumption; now apply pattern_iff_extension.
Qed.

(** The loop over a batch is the loop over its front, then over its
    back. *)
Lemma save_loop_app front back acc w :
  loop (front ++ back) acc w
  = match loop front acc w with
    | (Returns acc', w') => loop back acc' w'
    | (Raises e, w') => (Raises e, w')
    end.
Proof.
  revert acc w. induction front as [|p front IH]; intros acc w; [reflexivity |].
  simpl app. rewrite !save_loop_cons.
  destruct (allowed from_buffer p); [| reflexivity].
  destruct (extension_error (extension_of p)); [reflexivity | apply IH].
Qed.

(** A batch of allowed candidates whose names can be opened is saved
    whole, under the names made from the draws of the random source in
    their order. *)
Lemma save_loop_allowed good acc w :
  Forall (fun p => allowed from_buffer p = true) good ->
  Forall (fun p => storable p = true) good ->
  loop good acc w
  = (Returns (acc ++ names_from (entropy w) (drawn w) good),
     {| disk := write_all UPLOAD_FOLDER
                  (zip good (names_from (entropy w) (drawn w) good)) (disk w);
        entropy := entropy w;
        drawn := (drawn w + length good)%nat |}).
Proof.
  intros Hgood Hstor. revert acc w.
  induction good as [|p good IH]; intros acc w.
  - cbn [names_from zip_with length]. rewrite app_nil_r, Nat.add_0_r.
    now destruct w.
  - apply Forall_cons in Hgood as [Hp Hgood]. apply Forall_cons in Hstor as [Hs Hstor].
    rewrite save_loop_accepted by assumption.
    rewrite (IH Hgood Hstor). unfold turn_world, turn_name.
    cbn [disk entropy drawn names_from length]. rewrite <- app_assoc.
    f_equal. f_equal. lia.
Qed.

Lemma names_from_generated draws n pictures :
  Forall2 generated_name pictures (names_from draws n pictures).
Proof.
  revert n. induction pictures as [|p pictures IH]; intros n; constructor;
    [now exists (draws n) | apply IH].
Qed.

Lemma names_from_length draws n pictures :
  length (names_from draws n pictures) = length pictures.
Proof.
  revert n. induction pictures as [|p pictures IH]; intros n; simpl;
    [reflexivity | now rewrite IH].
Qed.

(** What a call leaves on disk is what the candidates of the front of the
    batch, all of them of an allowed type, have been written as, under the
    names the call drew for them. *)
Lemma save_loop_writes_drawn pictures acc w :
  exists written rest,
    pictures = written ++ rest /\
    Forall (fun p => allowed from_buffer p = true) written /\
    Forall (fun p => storable p = true) written /\
    disk (snd (loop pictures acc w))
    = write_all UPLOAD_FOLDER
        (zip written (names_from (entropy w) (drawn w) written)) (disk w) /\
    (forall out, fst (loop pictures acc w) = Returns out ->
       rest = [] /\ out = acc ++ names_from (entropy w) (drawn w) written).
Proof.
  revert acc w. induction pictures as [|p pictures IH]; intros acc w.
  - exists [], []. split; [reflexivity |]. do 3 (split; [constructor |]).
    simpl. intros out H. injection H as <-. now rewrite app_nil_r.
  - rewrite save_loop_cons. destruct (allowed from_buffer p) eqn:Hp.
    + destruct (extension_error (extension_of p)) as [e |] eqn:He.
      * exists [], (p :: pictures). repeat split; try constructor; discriminate.
      * destruct (IH (acc ++ [turn_name p w]) (turn_world UPLOAD_FOLDER p w))
          as (written & rest & -> & Hall & Hst & Hd & Hout).
        exists (p :: written), rest. split; [reflexivity |].
        split; [now constructor |].
        split; [constructor; [unfold storable; now rewrite He | assumption] |].
        split; [rewrite Hd; reflexivity |].
        intros out H. destruct (Hout out H) as [-> ->].
        split; [reflexivity |]. now rewrite <- app_assoc.
    + exists [], (p :: pictures). repeat split; try constructor; discriminate.
Qed.

Lemma save_loop_writes pictures acc w :
  exists written rest names,
    pictures = written ++ rest /\
    Forall (fun p => allowed from_buffer p = true) written /\
    Forall2 generated_name written names /\
    disk (snd (loop pictures acc w))
    = write_all UPLOAD_FOLDER (zip written names) (disk w).
Proof.
  destruct (save_loop_writes_drawn pictures acc w)
    as (written & rest & Hp & Hall & _ & Hd & _).
  exists written, rest, (names_from (entropy w) (drawn w) written).
  repeat split; try assumption. apply names_from_generated.
Qed.

(** The names of a call that returns. *)
Lemma save_loop_names pictures acc w out :
  fst (loop pictures acc w) = Returns out ->
  exists names, out = acc ++ names /\ Forall2 generated_name pictures names.
Proof.
  intros H. destruct (save_loop_writes_drawn pictures acc w)
    as (written & rest & Hp & _ & _ & _ & Hout).
  destruct (Hout out H) as [-> ->]. rewrite app_nil_r in Hp. subst pictures.
  eexists. split; [reflexivity | apply names_from_generated].
Qed.


(** C3, as the code has it. Every name a successful call returns is, for
    the candidate at the same place of the batch, 36 characters of
    [0-9a-f-] followed by the extension of the client's file name, the
    case of its letters kept; the extension is not checked, and the name
    follows the pattern [^[0-9a-f-]{36}\.(jpg|jpeg|png|gif)$], read with
    letters of either case, exactly when the extension is, the case of
    its letters aside, one of [.jpg], [.jpeg], [.png], [.gif]. *)
Theorem stored_names_shape pictures w names :
  fst (save_pictures from_buffer UPLOAD_FOLDER pictures w) = Returns names ->
  Forall2 stored_name_of pictures names.
Proof.
  intros H. apply save_loop_names in H as (out & -> & Hn). simpl.
  induction Hn; constructor; [now apply generated_name_stored | assumption].
Qed.

(** C8, as the code has it. A candidate whose content sniffs as JPEG and
    whose file name ends in [.png], the last path component of the name
    having a character other than the dot before that [.png]: the call
    accepts it and writes its whole content under a generated name that
    ends in [.png]. *)
Theorem jpeg_named_png_kept picture w dir c tail :
  sniffed from_buffer picture = u "image/jpeg" ->
  filename picture = dir ++ c :: tail ++ u ".png" ->
  c <> extsep -> c <> sep -> ~ In sep tail ->
  exists id w',
    save_pictures from_buffer UPLOAD_FOLDER [picture] w
    = (Returns [id ++ u ".png"], w') /\
    length id = 36%nat /\ forallb hexdash id = true /\
    disk w' !! join UPLOAD_FOLDER (id ++ u ".png") = Some (stream picture).
Proof.
  intros Hmime Hname Hc1 Hc2 Htail.
  assert (Hext : extension_of picture = u ".png").
  { unfold extension_of. rewrite Hname.
    change (u ".png") with (extsep :: u "png").
    rewrite splitext_stem; try assumption; try reflexivity;
      intros H; simpl in H; unfold sep, extsep in H;
      repeat destruct H as [H | H]; try discriminate; contradiction. }
  assert (Hok : allowed from_buffer picture = true)
    by (unfold allowed; now rewrite Hmime).
  assert (Hst : storable picture = true)
    by (unfold storable; now rewrite Hext).
  exists (uuid_str (uuid4_int (entropy w (drawn w)))), (turn_world UPLOAD_FOLDER picture w).
  unfold save_pictures. fold loop. rewrite save_loop_accepted by assumption.
  unfold turn_world, turn_name, loop. rewrite Hext. cbn [save_loop app disk].
  split; [reflexivity |]. split; [apply uuid_str_length |].
  split; [apply uuid_str_hexdash |]. apply lookup_insert_eq.
Qed.

(** C9. Whatever the batch, the disk after the call is the disk before it
    with the candidates of a front part of the batch written in order,
    each whole and under its generated name, and every candidate of that
    front part has a sniffed type among the allowed three: a candidate of
    another type is never written. *)
Theorem written_only_if_allowed pictures w :
  exists written rest names,
    pictures = written ++ rest /\
    Forall (fun p => mime_in (sniffed from_buffer p) allowed_mimes = true) written /\
    Forall2 generated_name written names /\
    disk (snd (save_pictures from_buffer UPLOAD_FOLDER pictures w))
    = write_all UPLOAD_FOLDER (zip written names) (disk w).
Proof. apply save_loop_writes. Qed.

End UploadGuard.

(* ===================================================================== *)
(** * Computations *)
(* ===================================================================== *)

Section MonadFacts.
Context {A B : Type}.

Lemma bind_ret_l (a : A) (k : A -> M B) : bind (ret a) k = k a.
Proof. unfold bind, ret. now destruct (k a). Qed.

Lemma bind_raise (e : exn) (k : A -> M B) : bind (raise e) k = raise e.
Proof. reflexivity. Qed.

Lemma bind_returns sent (a : A) (k : A -> M B) :
  bind (sent, Returns a) k = (sent ++ fst (k a), snd (k a)).
Proof. unfold bind. now destruct (k a). Qed.

Lemma fst_bind (m : M A) (k : A -> M B) :
  fst (bind m k)
  = fst m ++ match snd m with Returns a => fst (k a) | Raises _ => [] end.
Proof.
  destruct m as [sent [a | e]]; simpl.
  - now destruct (k a).
  - now rewrite app_nil_r.
Qed.

Lemma fst_bind_silent (m : M A) (k : A -> M B) :
  (forall a, silent (k a)) -> fst (bind m k) = fst m.
Proof.
  intros H. rewrite fst_bind. destruct (snd m); [rewrite H |]; apply app_nil_r.
Qed.

Lemma silent_bind (m : M A) (k : A -> M B) :
  silent m -> (forall a, silent (k a)) -> silent (bind m k).
Proof. intros Hm Hk. unfold silent. now rewrite fst_bind_silent. Qed.

Lemma fst_try_except (m h : M A) caught :
  silent h -> fst (try_except m caught h) = fst m.
Proof.
  unfold silent. intros Hh. destruct m as [sent [a | e]]; simpl; [reflexivity |].
  destruct (caught e); [| reflexivity].
  destruct h as [sent' r]. simpl in *. subst. apply app_nil_r.
Qed.

End MonadFacts.

Lemma searches_app (a b : list request) : searches (a ++ b) = searches a ++ searches b.
Proof. unfold searches. apply flat_map_app. Qed.

Section Silence.

Lemma silent_ret {A} (a : A) : silent (ret a).
Proof. reflexivity. Qed.

Lemma silent_raise {A} e : silent (@raise A e).
Proof. reflexivity. Qed.

Lemma silent_py_get o k d : silent (py_get o k d).
Proof. destruct o; try reflexivity. simpl. now destruct (lookup_item k items). Qed.

Lemma silent_getitem_key o k : silent (getitem_key o k).
Proof. destruct o; try reflexivity. simpl. now destruct (lookup_item k items). Qed.

Lemma silent_getitem_0 o : silent (getitem_0 o).
Proof. destruct o as [| | | |[|c s]|[|x l]|]; reflexivity. Qed.

Lemma silent_slice_3 o : silent (slice_3 o).
Proof. destruct o; reflexivity. Qed.

Lemma silent_raise_for_status r : silent (raise_for_status r).
Proof. destruct r; [reflexivity | |]; simpl; now destruct (_ && _). Qed.

Lemma silent_resp_json r : silent (resp_json r).
Proof. destruct r as [|st [j |]|st]; reflexivity. Qed.

Lemma silent_first_candidate_text j : silent (first_candidate_text j).
Proof.
  unfold first_candidate_text.
  repeat (apply silent_bind; [| intros ?]);
    first [apply silent_getitem_key | apply silent_getitem_0].
Qed.

Lemma silent_summarize py_repr items summary : silent (summarize py_repr items summary).
Proof.
  revert summary. induction items as [|item items IH]; intros summary; [reflexivity |].
  simpl. repeat (apply silent_bind; [apply silent_py_get | intros ?]). apply IH.
Qed.

End Silence.

(* ===================================================================== *)
(** * Removing the skip flag and trimming *)
(* ===================================================================== *)

Section FlagFacts.

Let R := replace no_search_flag [].

Lemma replace_from_skip old new k s :
  replace_from old new k s = replace_from old new 0 (skipn k s).
Proof.
  revert k. induction s as [|c s IH]; intros k.
  - now destruct k.
  - destruct k as [|k]; [reflexivity |]. simpl. apply IH.
Qed.

Lemma replace_flag_cons c s :
  R (c :: s) = if startswith no_search_flag (c :: s) then R (skipn 5 s) else c :: R s.
Proof.
  unfold R. change (replace no_search_flag [] (c :: s))
    with (replace_from no_search_flag [] 0 (c :: s)).
  cbn [replace_from]. destruct (startswith no_search_flag (c :: s)); [| reflexivity].
  rewrite replace_from_skip. reflexivity.
Qed.

Lemma flag_chars : no_search_flag = [46; 47; 115; 107; 105; 112].
Proof. reflexivity. Qed.

Lemma replace_flag_head t : R (no_search_flag ++ t) = R t.
Proof.
  assert (E : startswith no_search_flag (no_search_flag ++ t) = true)
    by (apply startswith_spec; now exists t).
  revert E. rewrite flag_chars at 2 3. cbn [app]. intros E.
  now rewrite replace_flag_cons, E.
Qed.

(** The flag cannot overlap a copy of itself, so every occurrence is one
    the scan meets: the text around an occurrence is treated as if the
    occurrence were a cut. *)
Lemma replace_flag_app a b :
  R (a ++ no_search_flag ++ b) = R a ++ R b.
Proof.
  remember (length a) as n eqn:Hn. revert a Hn.
  induction n as [n IH] using lt_wf_ind. intros a Hn.
  destruct a as [|c a].
  - rewrite app_nil_l. apply replace_flag_head.
  - rewrite <- app_comm_cons, !replace_flag_cons.
    destruct (startswith no_search_flag (c :: a ++ no_search_flag ++ b)) eqn:E.
    + apply startswith_spec in E as [t Ht]. rewrite flag_chars in Ht.
      destruct a as [|c2 [|c3 [|c4 [|c5 [|c6 a]]]]]; simpl in Ht; simplify_eq.
      assert (E : startswith no_search_flag (46 :: 47 :: 115 :: 107 :: 105 :: 112 :: a) = true)
        by (apply startswith_spec; now exists a).
      rewrite E. cbn [skipn app].
      apply (IH (length a)); [simpl; lia | reflexivity].
    + replace (startswith no_search_flag (c :: a)) with false.
      * rewrite <- app_comm_cons. f_equal.
        apply (IH (length a)); [subst n; simpl; lia | reflexivity].
      * symmetry. apply not_true_is_false. intros H.
        apply (startswith_app _ _ (no_search_flag ++ b)) in H.
        rewrite <- app_comm_cons in H. congruence.
Qed.

(** A text without the flag is left as it is. *)
Lemma replace_flag_absent s : contains no_search_flag s = false -> R s = s.
Proof.
  induction s as [|c s IH]; [reflexivity |].
  cbn [contains]. rewrite orb_false_iff. intros [Hs Hc].
  now rewrite replace_flag_cons, Hs, IH.
Qed.

Lemma join_with_app mark (a b : list pystr) :
  a <> [] -> b <> [] ->
  join_with mark (a ++ b) = join_with mark a ++ mark ++ join_with mark b.
Proof.
  intros Ha Hb. induction a as [|t a IH]; [contradiction |].
  destruct a as [|t' a].
  - destruct b as [|t' b]; [contradiction | reflexivity].
  - change (join_with mark ((t :: t' :: a) ++ b))
      with (t ++ mark ++ join_with mark ((t' :: a) ++ b)).
    rewrite IH by discriminate.
    change (join_with mark (t :: t' :: a)) with (t ++ mark ++ join_with mark (t' :: a)).
    now rewrite <- !app_assoc.
Qed.

(** Every text is pieces without the flag put together with the flag
    between them, and removing the flag leaves the pieces, one behind the
    other. *)
Lemma replace_flag_pieces q :
  exists pieces,
    pieces <> [] /\ q = join_with no_search_flag pieces /\
    Forall (fun t => contains no_search_flag t = false) pieces /\
    R q = concat pieces.
Proof.
  remember (length q) as n eqn:Hn. revert q Hn.
  induction n as [n IH] using lt_wf_ind. intros q Hn.
  destruct (contains no_search_flag q) eqn:E.
  - apply contains_split in E as (a & b & ->).
    rewrite !length_app in Hn. change (length no_search_flag) with 6%nat in Hn.
    destruct (IH (length a) ltac:(lia) a eq_refl) as (pa & Hpa & Ha & Hfa & Hra).
    destruct (IH (length b) ltac:(lia) b eq_refl) as (pb & Hpb & Hb & Hfb & Hrb).
    exists (pa ++ pb). split; [| split; [| split]].
    + destruct pa; [contradiction | discriminate].
    + rewrite join_with_app by assumption. now rewrite <- Ha, <- Hb.
    + apply Forall_app. now split.
    + now rewrite replace_flag_app, Hra, Hrb, concat_app.
  - exists [q]. split; [discriminate |]. split; [reflexivity |].
    split; [constructor; [assumption | constructor] |].
    cbn [concat]. rewrite app_nil_r. now apply replace_flag_absent.
Qed.

Lemma replace_from_length old k s :
  (length (replace_from old [] k s) <= length s)%nat.
Proof.
  revert k. induction s as [|c s IH]; intros k; simpl; [lia |].
  destruct k as [|k].
  - destruct (startswith old (c :: s)); simpl; [pose proof (IH (length old - 1)%nat) |
      pose proof (IH 0%nat)]; lia.
  - pose proof (IH k). lia.
Qed.

Lemma replace_flag_length s : (length (R s) <= length s)%nat.
Proof. apply replace_from_length. Qed.

(** Removing the flag from a text that holds it takes at least its six
    characters away. *)
Lemma replace_flag_shorter s :
  contains no_search_flag s = true -> (length (R s) + 6 <= length s)%nat.
Proof.
  intros H. apply contains_split in H as (a & b & ->).
  rewrite replace_flag_app. rewrite !length_app.
  pose proof (replace_flag_length a). pose proof (replace_flag_length b).
  change (length no_search_flag) with 6%nat. lia.
Qed.

Lemma lstrip_length s : (length (lstrip s) <= length s)%nat.
Proof.
  induction s as [|c s IH]; simpl; [lia |]. destruct (isspace c); simpl; lia.
Qed.

Lemma strip_length s : (length (strip s) <= length s)%nat.
Proof.
  unfold strip, rstrip. rewrite length_rev.
  pose proof (lstrip_length (rev (lstrip s))) as H. rewrite length_rev in H.
  pose proof (lstrip_length s). lia.
Qed.

Lemma lstrip_nonempty s :
  lstrip s <> [] <-> exists c, In c s /\ isspace c = false.
Proof.
  induction s as [|c s IH]; simpl.
  - split; [congruence | intros (c & [] & _)].
  - destruct (isspace c) eqn:E.
    + rewrite IH. split.
      * intros (x & Hx & Hs). exists x. tauto.
      * intros (x & [-> | Hx] & Hs); [congruence | now exists x].
    + split; [intros _; exists c; tauto | discriminate].
Qed.

Lemma lstrip_incl s c : In c (lstrip s) -> In c s.
Proof.
  induction s as [|x s IH]; simpl; [tauto |].
  destruct (isspace x); simpl; tauto.
Qed.

(** The trimmed text is empty exactly when the text is all white space. *)
Lemma strip_nonempty s :
  strip s <> [] <-> exists c, In c s /\ isspace c = false.
Proof.
  unfold strip, rstrip. split.
  - intros H.
    assert (H' : lstrip (rev (lstrip s)) <> [])
      by (intros E; apply H; now rewrite E).
    apply lstrip_nonempty in H' as (c & Hc & Hs).
    exists c. split; [| assumption].
    apply lstrip_incl. now apply in_rev.
  - intros Hex. apply lstrip_nonempty in Hex.
    destruct (lstrip s) as [|c r] eqn:E; [congruence |].
    assert (Hc : isspace c = false).
    { destruct s as [|x s]; [discriminate |]. revert E. clear.
      induction (x :: s) as [|y l IH]; simpl; [discriminate |].
      destruct (isspace y) eqn:Ey; [exact IH | congruence]. }
    intros H.
    assert (H2 : lstrip (rev (c :: r)) = []).
    { apply (f_equal (@rev N)) in H. now rewrite rev_involutive in H. }
    revert H2. apply lstrip_nonempty.
    exists c. split; [| assumption]. apply -> in_rev. now left.
Qed.

(** Trimming leaves no white space at either end. *)
Lemma lstrip_head s : lstrip s = [] \/ exists c r, lstrip s = c :: r /\ isspace c = false.
Proof.
  induction s as [|x s IH]; simpl; [now left |].
  destruct (isspace x) eqn:E; [exact IH | right; now exists x, s].
Qed.

Lemma lstrip_fixed c r : isspace c = false -> lstrip (c :: r) = c :: r.
Proof. intros H. simpl. now rewrite H. Qed.

Lemma lstrip_keeps_last l c :
  isspace c = false -> exists w, lstrip (l ++ [c]) = w ++ [c].
Proof.
  intros Hc. induction l as [|x l IH]; simpl.
  - rewrite Hc. now exists [].
  - destruct (isspace x); [exact IH | now exists (x :: l)].
Qed.

Lemma strip_trimmed s : trimmed (strip s).
Proof.
  unfold trimmed, strip, rstrip.
  assert (Hidem : forall t, lstrip (lstrip t) = lstrip t).
  { intros t. destruct (lstrip_head t) as [E | (d & v & E & Hd)]; rewrite E;
      [reflexivity | now apply lstrip_fixed]. }
  split.
  - destruct (lstrip_head s) as [E | (c & r & E & Hc)]; rewrite E; [reflexivity |].
    cbn [rev]. destruct (lstrip_keeps_last (rev r) c Hc) as [w Hw]. rewrite Hw.
    rewrite rev_app_distr. cbn [rev app]. now apply lstrip_fixed.
  - rewrite rev_involutive. now rewrite Hidem.
Qed.

Lemma strip_blank s : (forall c, In c s -> isspace c = true) -> strip s = [].
Proof.
  intros H. destruct (strip s) as [|x r] eqn:E; [reflexivity |].
  assert (Hne : strip s <> []) by (rewrite E; discriminate).
  apply strip_nonempty in Hne as (c & Hin & Hc). apply H in Hin. congruence.
Qed.

(** What trimming takes away is white space, at the two ends. *)
Lemma lstrip_split s : exists l, s = l ++ lstrip s /\ blank l = true.
Proof.
  induction s as [|c s IH]; [now exists [] |]. cbn [lstrip].
  destruct (isspace c) eqn:E; [| now exists []].
  destruct IH as (l & Hl & Hb). exists (c :: l). split.
  - cbn [app]. now rewrite <- Hl.
  - unfold blank in *. cbn [forallb]. now rewrite E.
Qed.

Lemma blank_rev l : blank l = true -> blank (rev l) = true.
Proof.
  unfold blank. rewrite !forallb_forall. intros H c Hc. apply H. now apply in_rev.
Qed.

Lemma strip_split s :
  exists l r, s = l ++ strip s ++ r /\ blank l = true /\ blank r = true.
Proof.
  destruct (lstrip_split s) as (l & Hl & Hbl).
  destruct (lstrip_split (rev (lstrip s))) as (r & Hr & Hbr).
  exists l, (rev r). split; [| split; [assumption | now apply blank_rev]].
  unfold strip, rstrip. rewrite <- rev_app_distr, <- Hr, rev_involutive. exact Hl.
Qed.

End FlagFacts.

(* ===================================================================== *)
(** * The two upstream calls *)
(* ===================================================================== *)

Section Upstreams.
Variable config : Config.
Variable upstream : Upstream.

Lemma configured_key (k : pystr) : k <> [] -> not_configured (Some k) = false.
Proof. intros H. unfold not_configured, PyStr.eqb. now apply bool_decide_eq_false. Qed.

Lemma search_web_sent q :
  fst (search_web config upstream q)
  = if not_configured (SERPER_API_KEY config) then []
    else [SerperSearch (default [] (SERPER_API_KEY config)) q].
Proof.
  unfold search_web. destruct (not_configured _); [reflexivity |].
  rewrite fst_try_except by apply silent_ret.
  apply fst_bind_silent. intros resp.
  apply silent_bind; [apply silent_raise_for_status | intros _].
  apply silent_bind; [apply silent_resp_json | intros data].
  apply silent_py_get.
Qed.

Lemma search_web_failed q k :
  SERPER_API_KEY config = Some k -> k <> [] ->
  search_failed (serper upstream k q) = true ->
  search_web config upstream q = ([SerperSearch k q], Returns (PList [])).
Proof.
  intros Hk Hne Hfail. unfold search_web. rewrite Hk, configured_key by assumption.
  cbn [from_option id]. unfold post_serper. rewrite bind_returns.
  destruct (serper upstream k q) as [|st body|st]; [reflexivity | |];
    cbn [search_failed] in Hfail; unfold error_status in Hfail;
    cbn [raise_for_status]; rewrite Hfail; reflexivity.
Qed.

Lemma search_web_organic q k st data organic :
  SERPER_API_KEY config = Some k -> k <> [] ->
  serper upstream k q = Response st (Some (PDict data)) ->
  error_status st = false ->
  lookup_item (u "organic") data = Some organic ->
  search_web config upstream q = ([SerperSearch k q], Returns organic).
Proof.
  intros Hk Hne Hresp Hst Horg. unfold search_web.
  rewrite Hk, configured_key by assumption.
  cbn [from_option id]. unfold post_serper. rewrite bind_returns, Hresp.
  unfold error_status in Hst. cbn [raise_for_status]. rewrite Hst.
  rewrite bind_ret_l. cbn [resp_json]. rewrite bind_ret_l.
  cbn [py_get]. rewrite Horg. reflexivity.
Qed.

(** A document that lacks an expected key makes the extraction raise
    [KeyError] or [IndexError]. *)
Lemma lacks_raises j :
  lacks expected_places j = true ->
  exists e, first_candidate_text j = raise e /\ is_generation_failure e = true.
Proof.
  unfold first_candidate_text, expected_places. cbn [lacks].
  destruct j as [| | | | | |d]; try discriminate. cbn [getitem_key].
  destruct (lookup_item _ d) as [j |];
    [rewrite bind_ret_l | intros _; exists KeyError; split; reflexivity].
  destruct j as [| | | | |[|j l]|]; try discriminate;
    [intros _; exists IndexError; split; reflexivity |].
  cbn [getitem_0]. rewrite bind_ret_l.
  destruct j as [| | | | | |d1]; try discriminate. cbn [getitem_key].
  destruct (lookup_item _ d1) as [j |];
    [rewrite bind_ret_l | intros _; exists KeyError; split; reflexivity].
  destruct j as [| | | | | |d2]; try discriminate. cbn [getitem_key].
  destruct (lookup_item _ d2) as [j |];
    [rewrite bind_ret_l | intros _; exists KeyError; split; reflexivity].
  destruct j as [| | | | |[|j l2]|]; try discriminate;
    [intros _; exists IndexError; split; reflexivity |].
  cbn [getitem_0]. rewrite bind_ret_l.
  destruct j as [| | | | | |d3]; try discriminate. cbn [getitem_key].
  destruct (lookup_item _ d3) as [j |];
    [discriminate | intros _; exists KeyError; split; reflexivity].
Qed.

(** A document with a value of the wrong kind on the way makes the
    extraction raise [TypeError]. *)
Lemma getitem_key_mistyped rest j k (cont : pyobj -> M pyobj) :
  (forall v, mistyped rest v = true -> cont v = raise TypeError) ->
  mistyped (Key k :: rest) j = true ->
  bind (getitem_key j k) cont = raise TypeError.
Proof.
  intros Hcont. cbn [mistyped].
  destruct j as [| | | | | |d]; try reflexivity. cbn [getitem_key].
  destruct (lookup_item k d) as [v |]; [| discriminate].
  rewrite bind_ret_l. apply Hcont.
Qed.

Lemma getitem_0_mistyped rest j (cont : pyobj -> M pyobj) :
  (forall v, mistyped rest v = true -> cont v = raise TypeError) ->
  mistyped (First :: rest) j = true ->
  bind (getitem_0 j) cont = raise TypeError.
Proof.
  intros Hcont. cbn [mistyped].
  destruct j as [| | | |[|c t]|[|x l]|d]; try reflexivity; try discriminate;
    cbn [getitem_0]; rewrite bind_ret_l; apply Hcont.
Qed.

Lemma mistyped_raises j :
  mistyped expected_places j = true -> first_candidate_text j = raise TypeError.
Proof.
  unfold first_candidate_text, expected_places.
  apply getitem_key_mistyped. intros candidates.
  apply getitem_0_mistyped. intros candidate.
  apply getitem_key_mistyped. intros content.
  apply getitem_key_mistyped. intros parts.
  apply getitem_0_mistyped. intros part.
  cbn [mistyped]. destruct part as [| | | | | |d]; try reflexivity.
  destruct (lookup_item _ d); discriminate.
Qed.

Lemma call_gemini_sent prompt k :
  GEMINI_API_KEY config = Some k -> k <> [] ->
  fst (call_gemini config upstream prompt) = [GeminiGenerate k prompt].
Proof.
  intros Hk Hne. unfold call_gemini. rewrite Hk, configured_key by assumption.
  rewrite fst_try_except by apply silent_ret.
  apply fst_bind_silent. intros resp.
  apply silent_bind; [apply silent_raise_for_status | intros _].
  apply silent_bind; [apply silent_resp_json | intros j].
  apply silent_first_candidate_text.
Qed.

Lemma call_gemini_no_search prompt :
  searches (fst (call_gemini config upstream prompt)) = [].
Proof.
  unfold call_gemini. destruct (GEMINI_API_KEY config) as [k |]; [| reflexivity].
  cbn [not_configured]. destruct (PyStr.eqb k []) eqn:E; [reflexivity |].
  rewrite fst_try_except by apply silent_ret.
  rewrite fst_bind_silent; [reflexivity |]. intros resp.
  apply silent_bind; [apply silent_raise_for_status | intros _].
  apply silent_bind; [apply silent_resp_json | intros j].
  apply silent_first_candidate_text.
Qed.

Lemma call_gemini_failed prompt k :
  GEMINI_API_KEY config = Some k -> k <> [] ->
  generation_failed (gemini upstream k prompt) = true ->
  call_gemini config upstream prompt = ([GeminiGenerate k prompt], Returns PNone).
Proof.
  intros Hk Hne Hfail. unfold call_gemini. rewrite Hk, configured_key by assumption.
  cbn [from_option id]. unfold post_gemini. rewrite bind_returns.
  destruct (gemini upstream k prompt) as [|st body|st]; [reflexivity | |].
  2: { cbn [generation_failed] in Hfail. unfold error_status in Hfail.
       cbn [raise_for_status]. rewrite Hfail. reflexivity. }
  cbn [generation_failed] in Hfail. unfold error_status in Hfail.
  cbn [raise_for_status].
  destruct ((400 <=? st) && (st <? 600)); [reflexivity |].
  rewrite bind_ret_l. destruct body as [j |]; [| reflexivity].
  cbn [resp_json]. rewrite bind_ret_l.
  destruct (lacks_raises j Hfail) as (e & -> & He).
  unfold raise, try_except. cbn [fst snd]. rewrite He. reflexivity.
Qed.

Lemma call_gemini_generated prompt k text :
  GEMINI_API_KEY config = Some k -> k <> [] ->
  generated (gemini upstream k prompt) text ->
  call_gemini config upstream prompt = ([GeminiGenerate k prompt], Returns (PStr text)).
Proof.
  intros Hk Hne (st & j & Hresp & Hst & Htext). unfold call_gemini.
  rewrite Hk, configured_key by assumption.
  cbn [from_option id]. unfold post_gemini. rewrite bind_returns, Hresp.
  unfold error_status in Hst. cbn [raise_for_status]. rewrite Hst.
  rewrite bind_ret_l. cbn [resp_json]. rewrite bind_ret_l, Htext. reflexivity.
Qed.

Lemma call_gemini_mistyped prompt k st j :
  GEMINI_API_KEY config = Some k -> k <> [] ->
  gemini upstream k prompt = Response st (Some j) ->
  error_status st = false ->
  mistyped expected_places j = true ->
  call_gemini config upstream prompt = ([GeminiGenerate k prompt], Raises TypeError).
Proof.
  intros Hk Hne Hresp Hst Hj. unfold call_gemini.
  rewrite Hk, configured_key by assumption.
  cbn [from_option id]. unfold post_gemini. rewrite bind_returns, Hresp.
  unfold error_status in Hst. cbn [raise_for_status]. rewrite Hst.
  rewrite bind_ret_l. cbn [resp_json]. rewrite bind_ret_l, (mistyped_raises j Hj).
  reflexivity.
Qed.

End Upstreams.

(* ===================================================================== *)
(** * [get_bot_response] *)
(* ===================================================================== *)

Section Orchestration.
Variable config : Config.
Variable upstream : Upstream.
Variable py_repr : pyobj -> pystr.

Lemma py_get_dict item k d :
  py_get (PDict item) k d = ret (default d (lookup_item k item)).
Proof. simpl. now destruct (lookup_item k item). Qed.

Lemma summarize_items items summary :
  summarize py_repr (map PDict items) summary
  = ret (summary ++ concat (map (summary_line py_repr) items)).
Proof.
  revert summary. induction items as [|item items IH]; intros summary.
  - simpl. now rewrite app_nil_r.
  - cbn [map summarize concat]. rewrite !py_get_dict, !bind_ret_l, IH.
    unfold summary_line. now rewrite <- !app_assoc.
Qed.

Lemma silent_after_search qs :
  silent
    (if negb (truthy (snd qs)) then ret (direct_prompt (fst qs))
     else
       let* top := slice_3 (snd qs) in
       let* summary := summarize py_repr top [] in
       ret (augmented_prompt summary (fst qs))).
Proof.
  destruct (negb _); [reflexivity |].
  apply silent_bind; [apply silent_slice_3 | intros top].
  apply silent_bind; [apply silent_summarize | intros summary]. reflexivity.
Qed.

Lemma build_prompt_flag q :
  contains no_search_flag q = true ->
  build_prompt config upstream py_repr q
  = ([], Returns (direct_prompt (strip (replace no_search_flag [] q)))).
Proof. intros H. unfold build_prompt. rewrite H, bind_ret_l. reflexivity. Qed.

Lemma build_prompt_no_results q sent :
  contains no_search_flag q = false ->
  search_web config upstream q = (sent, Returns (PList [])) ->
  build_prompt config upstream py_repr q = (sent, Returns (direct_prompt q)).
Proof.
  intros H Hs. unfold build_prompt. rewrite H, Hs, bind_returns.
  cbn [fst snd ret]. rewrite bind_returns.
  cbn [fst snd ret truthy negb]. now rewrite !app_nil_r.
Qed.

Lemma build_prompt_results q sent items :
  contains no_search_flag q = false ->
  search_web config upstream q = (sent, Returns (PList (map PDict items))) ->
  items <> [] ->
  build_prompt config upstream py_repr q
  = (sent,
     Returns (augmented_prompt
                (concat (map (summary_line py_repr) (firstn 3 items))) q)).
Proof.
  intros H Hs Hne. unfold build_prompt. rewrite H, Hs, bind_returns.
  cbn [fst snd ret]. rewrite bind_returns.
  cbn [fst snd]. destruct items as [|item items]; [contradiction |].
  cbn [map truthy negb slice_3]. rewrite bind_ret_l.
  change (PDict item :: map PDict items) with (map PDict (item :: items)).
  rewrite firstn_map, summarize_items, bind_ret_l.
  cbn [ret fst snd]. now rewrite !app_nil_r.
Qed.

Lemma get_bot_response_answer q sent prompt sent' answer :
  build_prompt config upstream py_repr q = (sent, Returns prompt) ->
  call_gemini config upstream prompt = (sent', Returns answer) ->
  get_bot_response config upstream py_repr q
  = (sent ++ sent',
     match answer with
     | PNone => Returns apology
     | PStr text => Returns (strip text)
     | _ => Raises AttributeError
     end).
Proof.
  intros Hb Hc. unfold get_bot_response. rewrite Hb, bind_returns, Hc, bind_returns.
  destruct answer; cbn [fst snd ret raise]; now rewrite app_nil_r.
Qed.

Lemma get_bot_response_sent q sent prompt k :
  build_prompt config upstream py_repr q = (sent, Returns prompt) ->
  GEMINI_API_KEY config = Some k -> k <> [] ->
  fst (get_bot_response config upstream py_repr q)
  = sent ++ [GeminiGenerate k prompt].
Proof.
  intros Hb Hk Hne. unfold get_bot_response. rewrite Hb, bind_returns.
  cbn [fst]. f_equal. rewrite fst_bind_silent.
  - now apply call_gemini_sent.
  - intros answer. now destruct answer.
Qed.

(** The two prompts are fixed texts around what they are given: the
    direct one puts the query between quotation marks at its end, the
    augmented one holds the summary and, further on, the query between
    quotation marks. *)
Lemma direct_prompt_frame :
  exists head, forall x, direct_prompt x = head ++ [34] ++ x ++ [34].
Proof.
  exists (u "Kamu adalah Putri, asisten virtual yang ramah, ceria, imut, dan lembut untuk platform wisata Lelana.id. " ++
          u "Kamu seperti cewek Indonesia yang baik hati, selalu hangat dan penuh perhatian ke pengguna, bikin mereka ngerasa nyaman kayak lagi chatting sama sahabat dekat di WhatsApp. " ++
          u "Jawab semua pertanyaan dalam bahasa Indonesia sepenuhnya, dengan gaya bicara manja tapi profesional: pakai paragraf pendek yang terstruktur, mudah dibaca, tambahin emoji lucu kalau pas aja, dan selalu tekankan info wisata yang akurat. " ++
          u "Kalau pengetahuanmu terbatas, bilang jujur dan saranin cari info lebih lanjut, jangan ngawur atau tambah cerita yang gak perlu. " ++
          u "Jawab pertanyaan berikut se-informatif dan seakurat mungkin berdasarkan pengetahuan umum kamu: ").
  intros x. unfold direct_prompt. now rewrite <- !app_assoc.
Qed.

Lemma augmented_prompt_frame :
  exists head mid tail,
    forall s x, augmented_prompt s x = head ++ s ++ mid ++ [34] ++ x ++ [34] ++ tail.
Proof.
  exists (u "Kamu adalah Putri, asisten virtual yang ramah, ceria, imut, dan lembut untuk platform wisata Lelana.id." ++ [10] ++
          u "Kamu seperti cewek Indonesia yang baik hati, selalu bucin ke pengguna dengan perhatian penuh, bikin mereka ngerasa spesial kayak prioritas utama. " ++
          u "Jawab semua dalam bahasa Indonesia sepenuhnya, gaya bicara manja, hangat, mudah dibaca: pakai paragraf pendek yang terstruktur kayak chatting di WhatsApp, tambahin emoji lucu kalau pas aja, tapi tetep informatif dan sopan." ++ [10] ++
          u "Berikut adalah beberapa informasi relevan dari web terkait pertanyaan pengguna, gunakan ini sebagai referensi utama tapi crosscheck kebenarannya dengan pengetahuan umum kamu:" ++ [10] ++ [10]),
         ([10] ++ [10] ++
          u "Berdasarkan informasi tersebut, improve dan jawab pertanyaan berikut dengan 100% sesuai konteks: kalau ada yang gak akurat di summary, koreksi dengan info yang bener, jangan tambah-tambah yang gak relevan, dan selalu fokus ke wisata Lelana.id: "),
         (u ". " ++
          u "Kalau info dari web kurang lengkap, tambahin dari pengetahuanmu tapi bilang sumbernya jujur ya!").
  intros s x. unfold augmented_prompt. now rewrite <- !app_assoc.
Qed.

Lemma summary_line_texts item t s :
  lookup_item (u "title") item = Some (PStr t) ->
  lookup_item (u "snippet") item = Some (PStr s) ->
  summary_line py_repr item = u "- " ++ t ++ u ": " ++ s ++ [10].
Proof. intros Ht Hs. unfold summary_line. now rewrite Ht, Hs. Qed.

Lemma summary_line_reads_two item item' :
  lookup_item (u "title") item = lookup_item (u "title") item' ->
  lookup_item (u "snippet") item = lookup_item (u "snippet") item' ->
  summary_line py_repr item = summary_line py_repr item'.
Proof. intros Ht Hs. unfold summary_line. now rewrite Ht, Hs. Qed.

(** C4, as the code has it. The search requests a call sends: none when
    the query holds the skip flag; otherwise one, with the query as it
    came, when [SERPER_API_KEY] is configured, and none when it is not. *)
Theorem search_requests_sent q :
  searches (fst (get_bot_response config upstream py_repr q))
  = if contains no_search_flag q then []
    else if not_configured (SERPER_API_KEY config) then []
    else [q].
Proof.
  unfold get_bot_response. rewrite fst_bind, searches_app.
  assert (Hrest :
    searches
      (match snd (build_prompt config upstream py_repr q) with
       | Returns prompt =>
           fst (let* answer := call_gemini config upstream prompt in
                match answer with
                | PNone => ret apology
                | PStr text => ret (strip text)
                | _ => raise AttributeError
                end)
       | Raises _ => []
       end) = []).
  { destruct (snd _) as [prompt | e]; [| reflexivity].
    rewrite fst_bind_silent; [apply call_gemini_no_search |].
    intros answer. now destruct answer. }
  rewrite Hrest, app_nil_r. unfold build_prompt.
  rewrite fst_bind_silent by apply silent_after_search.
  destruct (contains no_search_flag q); [reflexivity |].
  rewrite fst_bind_silent by (intros r; reflexivity).
  rewrite search_web_sent. now destruct (not_configured _).
Qed.

(** With the generation key configured and a prompt built, a generation
    call that fails by a transport error, an error status, a body that is
    no JSON document or a document in which a key or a first element of
    [candidates[0].content.parts[0].text] is not there, makes
    [get_bot_response] return the fixed apology. *)
Lemma failed_generation_gives_apology q sent prompt k :
  GEMINI_API_KEY config = Some k -> k <> [] ->
  build_prompt config upstream py_repr q = (sent, Returns prompt) ->
  generation_failed (gemini upstream k prompt) = true ->
  get_bot_response config upstream py_repr q
  = (sent ++ [GeminiGenerate k prompt], Returns apology).
Proof.
  intros Hk Hne Hb Hfail.
  now rewrite (get_bot_response_answer q sent prompt _ PNone Hb
                 (call_gemini_failed config upstream prompt k Hk Hne Hfail)).
Qed.

(** C6, as the code has it. A query without the skip flag whose search
    call fails, by a transport error or an error status: the search
    result is taken as empty and the prompt built is the direct one;
    with the generation key configured the generation request carries
    that prompt, and when it succeeds with a text the call returns that
    text trimmed, which is not empty exactly when the text has a
    character that is not white space. *)
Theorem search_failure_falls_back q k :
  contains no_search_flag q = false ->
  SERPER_API_KEY config = Some k -> k <> [] ->
  search_failed (serper upstream k q) = true ->
  build_prompt config upstream py_repr q
  = ([SerperSearch k q], Returns (direct_prompt q)) /\
  forall gk text,
    GEMINI_API_KEY config = Some gk -> gk <> [] ->
    generated (gemini upstream gk (direct_prompt q)) text ->
    get_bot_response config upstream py_repr q
    = ([SerperSearch k q; GeminiGenerate gk (direct_prompt q)],
       Returns (strip text)) /\
    (strip text <> [] <-> exists c, In c text /\ isspace c = false).
Proof.
  intros Hflag Hk Hne Hfail.
  pose proof (build_prompt_no_results q _ Hflag
                (search_web_failed config upstream q k Hk Hne Hfail)) as Hb.
  split; [exact Hb |]. intros gk text Hgk Hgne Hgen. split.
  - now rewrite (get_bot_response_answer q _ _ _ (PStr text) Hb
                   (call_gemini_generated config upstream _ gk text Hgk Hgne Hgen)).
  - apply strip_nonempty.
Qed.

(** C7. A query without the skip flag whose search returns a non-empty
    list of organic results: the prompt built is a fixed text that holds,
    at one place, the summary and, further on, the query between quotation
    marks. The summary is made of the lines of the first
    [min 3 (length items)] results and of no other, in their order; a line
    is [- title: snippet] and reads nothing else of its result; of five
    results the first three are shown. With the generation key configured,
    the generation request carries that prompt. *)
Theorem top_three_results_in_prompt q k st data items :
  contains no_search_flag q = false ->
  SERPER_API_KEY config = Some k -> k <> [] ->
  serper upstream k q = Response st (Some (PDict data)) ->
  error_status st = false ->
  lookup_item (u "organic") data = Some (PList (map PDict items)) ->
  items <> [] ->
  let shown := firstn 3 items in
  let summary := concat (map (summary_line py_repr) shown) in
  (exists head mid tail,
     let prompt := head ++ summary ++ mid ++ [34] ++ q ++ [34] ++ tail in
     (forall s x, augmented_prompt s x = head ++ s ++ mid ++ [34] ++ x ++ [34] ++ tail) /\
     build_prompt config upstream py_repr q = ([SerperSearch k q], Returns prompt) /\
     (forall gk, GEMINI_API_KEY config = Some gk -> gk <> [] ->
        fst (get_bot_response config upstream py_repr q)
        = [SerperSearch k q; GeminiGenerate gk prompt])) /\
  length shown = Nat.min 3 (length items) /\
  (forall r1 r2 r3 r4 r5, items = [r1; r2; r3; r4; r5] ->
     summary = summary_line py_repr r1 ++ summary_line py_repr r2 ++
               summary_line py_repr r3) /\
  (forall item t s,
     lookup_item (u "title") item = Some (PStr t) ->
     lookup_item (u "snippet") item = Some (PStr s) ->
     summary_line py_repr item = u "- " ++ t ++ u ": " ++ s ++ [10]) /\
  (forall item item',
     lookup_item (u "title") item = lookup_item (u "title") item' ->
     lookup_item (u "snippet") item = lookup_item (u "snippet") item' ->
     summary_line py_repr item = summary_line py_repr item').
Proof.
  intros Hflag Hk Hne Hresp Hst Horg Hitems shown summary.
  pose proof (build_prompt_results q _ items Hflag
                (search_web_organic config upstream q k st data _ Hk Hne Hresp Hst Horg)
                Hitems) as Hb.
  split; [| split; [apply length_firstn | split; [| split]]].
  - destruct augmented_prompt_frame as (head & mid & tail & Hframe).
    exists head, mid, tail. cbn zeta. rewrite <- Hframe.
    split; [exact Hframe | split; [exact Hb |]].
    intros gk Hgk Hgne. now rewrite (get_bot_response_sent q _ _ gk Hb Hgk Hgne).
  - intros r1 r2 r3 r4 r5 ->. unfold summary, shown. simpl. now rewrite app_nil_r.
  - apply summary_line_texts.
  - apply summary_line_reads_two.
Qed.

(** C10. A query that holds the skip flag: no search request is sent, and
    the prompt built is a fixed text that ends in the cleaned query
    between quotation marks. The cleaned query is the query with the flag
    removed and the result trimmed. Removal takes every occurrence and
    nothing else: the query is pieces without the flag put together with
    the flag between them, and what is left is those pieces one behind the
    other; around any occurrence, the text before it and the text behind
    it are treated on their own. Trimming takes white space away at the
    two ends and leaves none there. The cleaned query is shorter than the
    query by the six characters of the flag at least, so it is never the
    query as it came. With the generation key configured, the generation
    request carries that prompt. *)
Theorem flag_removed_before_prompt q :
  contains no_search_flag q = true ->
  let removed := replace no_search_flag [] q in
  let stripped := strip removed in
  (exists head,
     let prompt := head ++ [34] ++ stripped ++ [34] in
     (forall x, direct_prompt x = head ++ [34] ++ x ++ [34]) /\
     build_prompt config upstream py_repr q = ([], Returns prompt) /\
     (forall gk, GEMINI_API_KEY config = Some gk -> gk <> [] ->
        fst (get_bot_response config upstream py_repr q)
        = [GeminiGenerate gk prompt])) /\
  (exists pieces,
     q = join_with no_search_flag pieces /\
     Forall (fun t => contains no_search_flag t = false) pieces /\
     removed = concat pieces) /\
  (forall a b, q = a ++ no_search_flag ++ b ->
     removed = replace no_search_flag [] a ++ replace no_search_flag [] b) /\
  (exists l r, removed = l ++ stripped ++ r /\ blank l = true /\ blank r = true) /\
  trimmed stripped /\
  (length stripped + 6 <= length q)%nat /\ stripped <> q.
Proof.
  intros Hflag removed stripped. pose proof (build_prompt_flag q Hflag) as Hb.
  assert (Hlen : (length stripped + 6 <= length q)%nat).
  { pose proof (replace_flag_shorter q Hflag).
    pose proof (strip_length (replace no_search_flag [] q)).
    unfold stripped, removed. lia. }
  split; [| split; [| split; [| split; [| split; [| split]]]]].
  - destruct direct_prompt_frame as (head & Hframe).
    exists head. cbn zeta. rewrite <- Hframe.
    split; [exact Hframe | split; [exact Hb |]].
    intros gk Hgk Hgne. now rewrite (get_bot_response_sent q _ _ gk Hb Hgk Hgne).
  - destruct (replace_flag_pieces q) as (pieces & _ & Hq & Hfree & Hr).
    now exists pieces.
  - intros a b ->. apply replace_flag_app.
  - apply strip_split.
  - apply strip_trimmed.
  - exact Hlen.
  - intros E. rewrite E in Hlen. lia.
Qed.

End Orchestration.

(* ===================================================================== *)
(** * The claims at the worked inputs *)
(* ===================================================================== *)



(** C3 does not hold of the code: a JPEG sent as [photo.bmp] is accepted
    and stored under a name that ends in [.bmp], which the pattern does not
    admit in either case of its letters. *)
Lemma bmp_extension_outside_pattern :
  fst (save_pictures magic_numbers uploads [photo_bmp] fresh_world)
  = Returns [first_uuid ++ u ".bmp"] /\
  stored_name_pattern (first_uuid ++ u ".bmp") = false.
Proof. split; vm_compute; reflexivity. Qed.

(** C3 as amended, at two JPEG files sent as [photo.JPG] and [photo.bmp]:
    the first name follows the pattern, the second does not. *)
Lemma stored_names_shape_witness :
  fst (save_pictures magic_numbers uploads [photo_JPG; photo_bmp] fresh_world)
  = Returns [first_uuid ++ u ".JPG"; u "1f0e2d3c-4b5a-4978-8796-a5b4c3d2e1f1.bmp"] /\
  Forall2 stored_name_of [photo_JPG; photo_bmp]
    [first_uuid ++ u ".JPG"; u "1f0e2d3c-4b5a-4978-8796-a5b4c3d2e1f1.bmp"] /\
  stored_name_pattern (first_uuid ++ u ".JPG") = true /\
  stored_name_pattern (u "1f0e2d3c-4b5a-4978-8796-a5b4c3d2e1f1.bmp") = false.
Proof.
  assert (H : fst (save_pictures magic_numbers uploads [photo_JPG; photo_bmp] fresh_world)
              = Returns [first_uuid ++ u ".JPG"; u "1f0e2d3c-4b5a-4978-8796-a5b4c3d2e1f1.bmp"])
    by (vm_compute; reflexivity).
  split; [exact H |].
  split; [exact (stored_names_shape magic_numbers uploads _ fresh_world _ H) |].
  split; vm_compute; reflexivity.
Defined.

(** C8 does not hold of the code: a JPEG sent under the bare name [.png].
    The name ends in [.png], yet [os.path.splitext] finds no extension in
    it, and the stored name is the UUID alone. *)
Lemma bare_png_name_stored_without_extension :
  sniffed magic_numbers dot_png = u "image/jpeg" /\
  endswith (u ".png") (filename dot_png) = true /\
  fst (save_pictures magic_numbers uploads [dot_png] fresh_world) = Returns [first_uuid] /\
  endswith (u ".png") first_uuid = false.
Proof. repeat split; vm_compute; reflexivity. Qed.

(** C8 as amended, at a JPEG sent as [holiday.png]. *)
Lemma jpeg_named_png_kept_witness :
  sniffed magic_numbers holiday_png = u "image/jpeg" /\
  filename holiday_png = [] ++ 104 :: u "oliday" ++ u ".png" /\
  exists id w',
    save_pictures magic_numbers uploads [holiday_png] fresh_world
    = (Returns [id ++ u ".png"], w') /\
    length id = 36%nat /\ forallb hexdash id = true /\
    disk w' !! join uploads (id ++ u ".png") = Some (stream holiday_png).
Proof.
  split; [reflexivity | split; [reflexivity |]].
  apply (jpeg_named_png_kept magic_numbers uploads holiday_png fresh_world
           [] 104 (u "oliday")).
  - reflexivity.
  - reflexivity.
  - discriminate.
  - discriminate.
  - vm_compute. intros H. repeat destruct H as [H | H]; try discriminate; exact H.
Defined.

(** C2, at the input that breaks it: no generation key in the
    configuration. The caller gets the text of the configuration error, not
    an answer and not the apology. *)
Theorem missing_gemini_key_text_returned upstream py_repr :
  get_bot_response no_keys upstream py_repr bali
  = ([], Returns (u "Error: Kunci API Gemini belum dikonfigurasi.")) /\
  u "Error: Kunci API Gemini belum dikonfigurasi." <> apology.
Proof. split; [vm_compute; reflexivity | discriminate]. Qed.

(** C4 does not hold of the code: a query without the flag, and no search
    key in the configuration. No search request is sent. *)
Lemma no_search_key_no_search_request :
  contains no_search_flag bali = false /\
  fst (get_bot_response gemini_key_only offline repr_unused bali)
  = [GeminiGenerate (u "gemini-key") (direct_prompt bali)] /\
  searches (fst (get_bot_response gemini_key_only offline repr_unused bali)) = [].
Proof. repeat split; vm_compute; reflexivity. Qed.

(** C5, at the input that breaks it: both keys configured, a search
    without results, and a generation service whose document holds [null]
    where the candidates should be, so that nothing is there at
    [candidates[0].content.parts[0].text]. Reading [candidates[0]] raises
    [TypeError], which is not among the errors [call_gemini] turns into
    [None]: the exception leaves [call_gemini] and [get_bot_response]
    after both requests have been sent, and no apology is returned. *)
Theorem null_candidates_raise_type_error py_repr :
  gemini no_organic_null_candidates (u "gemini-key") (direct_prompt bali)
  = Response 200 (Some (PDict [(u "candidates", PNone)])) /\
  first_candidate_text (PDict [(u "candidates", PNone)]) = raise TypeError /\
  is_generation_failure TypeError = false /\
  call_gemini both_keys no_organic_null_candidates (direct_prompt bali)
  = ([GeminiGenerate (u "gemini-key") (direct_prompt bali)], Raises TypeError) /\
  get_bot_response both_keys no_organic_null_candidates py_repr bali
  = ([SerperSearch (u "serper-key") bali;
      GeminiGenerate (u "gemini-key") (direct_prompt bali)],
     Raises TypeError).
Proof. repeat split; vm_compute; reflexivity. Qed.

(** A generation document whose list of candidates is empty gives the
    apology. *)
Lemma empty_candidates_give_apology :
  generation_failed
    (gemini five_results_no_candidates (u "gemini-key") (direct_prompt (u "pantai di Bali")))
  = true /\
  get_bot_response both_keys five_results_no_candidates repr_unused bali_skip
  = ([] ++ [GeminiGenerate (u "gemini-key") (direct_prompt (u "pantai di Bali"))],
     Returns apology).
Proof.
  split; [reflexivity |].
  apply (failed_generation_gives_apology both_keys five_results_no_candidates
           repr_unused bali_skip [] (direct_prompt (u "pantai di Bali")) (u "gemini-key")).
  - reflexivity.
  - discriminate.
  - vm_compute. reflexivity.
  - reflexivity.
Qed.

(** C6 does not hold of the code: the search is unreachable and the model
    answers with a single blank. The call returns the empty string. *)
Lemma blank_answer_returned_empty :
  contains no_search_flag bali = false /\
  search_failed (serper (search_down [32]) (u "serper-key") bali) = true /\
  generated (gemini (search_down [32]) (u "gemini-key") (direct_prompt bali)) [32] /\
  get_bot_response both_keys (search_down [32]) repr_unused bali
  = ([SerperSearch (u "serper-key") bali;
      GeminiGenerate (u "gemini-key") (direct_prompt bali)],
     Returns []).
Proof.
  split; [vm_compute; reflexivity |]. split; [reflexivity |]. split.
  - exists 200, (gemini_document [32]). repeat split; vm_compute; reflexivity.
  - vm_compute. reflexivity.
Qed.

(** C6 as amended, at an unreachable search and a model that answers. *)
Lemma search_failure_falls_back_witness :
  search_failed (serper (search_down (u " Halo! ")) (u "serper-key") bali) = true /\
  build_prompt both_keys (search_down (u " Halo! ")) repr_unused bali
  = ([SerperSearch (u "serper-key") bali], Returns (direct_prompt bali)) /\
  get_bot_response both_keys (search_down (u " Halo! ")) repr_unused bali
  = ([SerperSearch (u "serper-key") bali;
      GeminiGenerate (u "gemini-key") (direct_prompt bali)],
     Returns (strip (u " Halo! "))).
Proof.
  split; [reflexivity |].
  destruct (search_failure_falls_back both_keys (search_down (u " Halo! "))
              repr_unused bali (u "serper-key")) as [Hb Hg].
  - vm_compute. reflexivity.
  - reflexivity.
  - discriminate.
  - reflexivity.
  - split; [exact Hb |].
    apply (Hg (u "gemini-key") (u " Halo! ")).
    + reflexivity.
    + discriminate.
    + exists 200, (gemini_document (u " Halo! ")).
      repeat split; vm_compute; reflexivity.
Defined.

(** C7 at a search that finds five results. *)
Lemma top_three_results_in_prompt_witness :
  lookup_item (u "organic") [(u "organic", PList (map PDict five_hits))]
  = Some (PList (map PDict five_hits)) /\
  concat (map (summary_line repr_unused) (firstn 3 five_hits))
  = u "- Pantai Kuta: Pantai di Bali" ++ [10] ++ u "- Ubud: Sawah dan seni" ++ [10] ++
    u "- Tanah Lot: Pura di atas karang" ++ [10] /\
  exists head mid tail,
    (forall s x, augmented_prompt s x = head ++ s ++ mid ++ [34] ++ x ++ [34] ++ tail) /\
    build_prompt both_keys five_results_no_candidates repr_unused bali
    = ([SerperSearch (u "serper-key") bali],
       Returns (head ++ concat (map (summary_line repr_unused) (firstn 3 five_hits)) ++
                mid ++ [34] ++ bali ++ [34] ++ tail)).
Proof.
  split; [reflexivity |]. split; [vm_compute; reflexivity |].
  destruct (top_three_results_in_prompt both_keys five_results_no_candidates
              repr_unused bali (u "serper-key") 200
              [(u "organic", PList (map PDict five_hits))] five_hits)
    as [(head & mid & tail & Hframe & Hb & _) _].
  - vm_compute. reflexivity.
  - reflexivity.
  - discriminate.
  - reflexivity.
  - reflexivity.
  - reflexivity.
  - discriminate.
  - exists head, mid, tail. split; [exact Hframe | exact Hb].
Defined.

(** C10 at a query that holds the flag twice. *)
Lemma flag_removed_before_prompt_witness :
  contains no_search_flag bali_skip = true /\
  replace no_search_flag [] bali_skip = u " pantai di Bali  " /\
  strip (replace no_search_flag [] bali_skip) = u "pantai di Bali" /\
  exists head,
    (forall x, direct_prompt x = head ++ [34] ++ x ++ [34]) /\
    build_prompt both_keys offline repr_unused bali_skip
    = ([], Returns (head ++ [34] ++ strip (replace no_search_flag [] bali_skip) ++ [34])).
Proof.
  assert (H : contains no_search_flag bali_skip = true) by (vm_compute; reflexivity).
  split; [exact H |]. split; [vm_compute; reflexivity |].
  split; [vm_compute; reflexivity |].
  destruct (flag_removed_before_prompt both_keys offline repr_unused bali_skip H)
    as [(head & Hframe & Hb & _) _].
  exists head. split; [exact Hframe | exact Hb].
Defined.


(* ===================================================================== *)
(** * More on the upload guard *)
(* ===================================================================== *)

Section UploadGuardMore.
Variable from_buffer : list byte -> pystr.
Variable UPLOAD_FOLDER : pystr.

Let loop := save_loop from_buffer UPLOAD_FOLDER.

Lemma save_loop_returns_allowed pictures acc w out :
  fst (loop pictures acc w) = Returns out ->
  Forall (fun p => allowed from_buffer p = true) pictures /\
  Forall (fun p => storable p = true) pictures.
Proof.
  intros H. destruct (save_loop_writes_drawn from_buffer UPLOAD_FOLDER pictures acc w)
    as (written & rest & Hp & Hall & Hst & _ & Hout).
  destruct (Hout out H) as [-> _]. rewrite app_nil_r in Hp. subst pictures.
  now split.
Qed.

Lemma same_head_allowed p q :
  same_head p q -> allowed from_buffer p = allowed from_buffer q.
Proof. intros [_ H]. unfold allowed, sniffed. now rewrite H. Qed.

Lemma save_loop_same_heads ps qs acc w1 w2 :
  Forall2 same_head ps qs -> entropy w1 = entropy w2 -> drawn w1 = drawn w2 ->
  fst (loop ps acc w1) = fst (loop qs acc w2).
Proof.
  intros Hsame. revert acc w1 w2.
  induction Hsame as [|p q ps qs Hpq _ IH]; intros acc w1 w2 He Hd; [reflexivity |].
  pose proof (same_head_allowed p q Hpq) as Ha.
  assert (Hx : extension_of p = extension_of q)
    by (unfold extension_of; now destruct Hpq as [-> _]).
  unfold loop. rewrite !save_loop_cons, Ha, Hx.
  destruct (allowed from_buffer q).
  - destruct (extension_error (extension_of q)); [reflexivity |].
    assert (Hn : turn_name p w1 = turn_name q w2)
      by (unfold turn_name; now rewrite Hx, He, Hd).
    rewrite Hn. apply IH; simpl; congruence.
  - unfold sniffed. destruct Hpq as [_ ->]. reflexivity.
Qed.

(** X1. A call returns names exactly when every candidate of the batch has
    a sniffed type among the allowed three and an extension with which the
    generated name can be opened; otherwise it raises. *)
Theorem returns_iff_all_allowed_and_storable pictures w :
  (exists names, fst (save_pictures from_buffer UPLOAD_FOLDER pictures w) = Returns names)
  <-> Forall (fun p => allowed from_buffer p = true /\ storable p = true) pictures.
Proof.
  unfold save_pictures. split.
  - intros [names H].
    destruct (save_loop_returns_allowed _ _ _ _ H) as [Hall Hst].
    rewrite List.Forall_forall in *. intros p Hp. split; [now apply Hall | now apply Hst].
  - intros H.
    assert (Hall : Forall (fun p => allowed from_buffer p = true) pictures)
      by (eapply List.Forall_impl; [| exact H]; now intros p [Hp _]).
    assert (Hst : Forall (fun p => storable p = true) pictures)
      by (eapply List.Forall_impl; [| exact H]; now intros p [_ Hp]).
    rewrite (save_loop_allowed from_buffer UPLOAD_FOLDER pictures [] w Hall Hst).
    now eexists.
Qed.

(** X2. When a call returns names that are pairwise different, there is one
    name for each candidate and, after the call, each candidate's whole
    content is the file under its name in the upload folder. *)
Theorem accepted_files_found pictures w names :
  fst (save_pictures from_buffer UPLOAD_FOLDER pictures w) = Returns names ->
  NoDup names ->
  length names = length pictures /\
  Forall2 (fun p n =>
             disk (snd (save_pictures from_buffer UPLOAD_FOLDER pictures w))
               !! join UPLOAD_FOLDER n = Some (stream p)) pictures names.
Proof.
  unfold save_pictures. intros H Hnd.
  destruct (save_loop_returns_allowed _ _ _ _ H) as [Hall Hst].
  rewrite (save_loop_allowed from_buffer UPLOAD_FOLDER pictures [] w Hall Hst) in *.
  cbn [fst snd disk app] in *. injection H as <-.
  split; [apply names_from_length |].
  apply write_all_found; [apply names_from_generated | assumption].
Qed.

(** X3. Whatever the batch and whether the call returns or raises, the
    files written are those of a front part of the batch, every candidate
    of which is of an allowed type, under the names the call made for them
    from its draws of the random source, which are the names returned when
    the call returns; the content of every other path is as it was. *)
Theorem other_paths_untouched pictures w :
  exists written rest,
    pictures = written ++ rest /\
    Forall (fun p => allowed from_buffer p = true) written /\
    let names := names_from (entropy w) (drawn w) written in
    (forall out, fst (save_pictures from_buffer UPLOAD_FOLDER pictures w) = Returns out ->
       rest = [] /\ out = names) /\
    forall path, ~ In path (map (join UPLOAD_FOLDER) names) ->
      disk (snd (save_pictures from_buffer UPLOAD_FOLDER pictures w)) !! path
      = disk w !! path.
Proof.
  destruct (save_loop_writes_drawn from_buffer UPLOAD_FOLDER pictures [] w)
    as (written & rest & Hp & Hall & _ & Hd & Hout).
  exists written, rest. split; [assumption |]. split; [assumption |]. cbn zeta. split.
  - intros out H. exact (Hout out H).
  - intros path Hpath. unfold save_pictures. rewrite Hd.
    apply write_all_other. intros [q n] Hin E. apply Hpath.
    apply in_map_iff. exists n. split; [exact E | exact (in_zip_r _ _ _ _ Hin)].
Qed.

(** X4. No name a call returns holds a path separator, whatever the
    client's file name was: the extension kept is empty or a dot followed
    by characters that are neither dots nor separators, and the file's path
    is the upload folder, a separator where the folder does not end in
    one, and the name. *)
Theorem stored_names_inside_folder pictures w names :
  fst (save_pictures from_buffer UPLOAD_FOLDER pictures w) = Returns names ->
  Forall2 (fun p n =>
             ~ In sep n /\ extension_shaped (extension_of p) /\
             join UPLOAD_FOLDER n
             = UPLOAD_FOLDER ++
               (if PyStr.eqb UPLOAD_FOLDER [] || endswith [sep] UPLOAD_FOLDER
                then [] else [sep]) ++ n) pictures names.
Proof.
  intros H. apply save_loop_names in H as (out & -> & Hgen). simpl app.
  eapply Forall2_impl; [exact Hgen |]. intros p n Hn.
  pose proof (generated_name_no_sep p n Hn) as Hsep.
  split; [assumption |]. split; [apply splitext_extension_shaped |].
  now apply join_plain_name.
Qed.

(** X5. The outcome of a call, the names returned or the error raised,
    rests on the file names and on the first 2048 bytes the streams yield:
    two batches that agree on these come to the same outcome, whatever
    follows those bytes in the files. *)
Theorem verdict_reads_head_only ps qs w1 w2 :
  Forall2 same_head ps qs -> entropy w1 = entropy w2 -> drawn w1 = drawn w2 ->
  fst (save_pictures from_buffer UPLOAD_FOLDER ps w1)
  = fst (save_pictures from_buffer UPLOAD_FOLDER qs w2).
Proof. intros Hsame He Hd. unfold save_pictures. now apply save_loop_same_heads. Qed.

(** X20. An allowed candidate whose extension makes the generated name one
    that cannot be opened, behind candidates that were saved: the call
    raises what opening raises, [ValueError] with the text
    [embedded null byte] when the extension holds a NUL and [OSError] when
    the name is too long; an identifier has been drawn for the candidate
    and nothing is written for it, the files of the candidates before it
    stay on disk, and the candidates behind it are not looked at. *)
Theorem unopenable_name_raises good picture rest w e :
  Forall (fun p => allowed from_buffer p = true) good ->
  Forall (fun p => storable p = true) good ->
  allowed from_buffer picture = true ->
  extension_error (extension_of picture) = Some e ->
  save_pictures from_buffer UPLOAD_FOLDER (good ++ picture :: rest) w
  = (Raises e, refused_world (snd (save_pictures from_buffer UPLOAD_FOLDER good w))) /\
  fst (save_pictures from_buffer UPLOAD_FOLDER good w)
  = Returns (names_from (entropy w) (drawn w) good) /\
  (if existsb (N.eqb 0) (extension_of picture)
   then e = ValueError (u "embedded null byte") else e = OSError).
Proof.
  intros Hgood Hstor Hp He. unfold save_pictures.
  rewrite save_loop_app.
  rewrite (save_loop_allowed from_buffer UPLOAD_FOLDER good [] w Hgood Hstor).
  rewrite (save_loop_refused from_buffer UPLOAD_FOLDER _ _ _ _ e) by assumption.
  split; [reflexivity |]. split; [reflexivity |].
  unfold extension_error in He. destruct (existsb _ _); [congruence |].
  destruct (_ <? _); congruence.
Qed.

End UploadGuardMore.

(* ===================================================================== *)
(** * More on computations *)
(* ===================================================================== *)

Section OutcomeFacts.
Context {A B : Type}.

Lemma snd_bind (m : M A) (k : A -> M B) :
  snd (bind m k)
  = match snd m with Returns a => snd (k a) | Raises e => Raises e end.
Proof. destruct m as [sent [a | e]]; simpl; [now destruct (k a) | reflexivity]. Qed.

Lemma bind_raises_inv (m : M A) (k : A -> M B) e :
  snd (bind m k) = Raises e ->
  snd m = Raises e \/ exists a, snd m = Returns a /\ snd (k a) = Raises e.
Proof.
  rewrite snd_bind. destruct (snd m) as [a | e']; intros H.
  - right. now exists a.
  - left. now injection H as ->.
Qed.

Lemma bind_returns_inv (m : M A) (k : A -> M B) b :
  snd (bind m k) = Returns b ->
  exists a, snd m = Returns a /\ snd (k a) = Returns b.
Proof.
  rewrite snd_bind. destruct (snd m) as [a | e']; intros H; [now exists a | discriminate].
Qed.

Lemma snd_try_except (m h : M A) caught :
  snd (try_except m caught h)
  = match snd m with
    | Raises e => if caught e then snd h else Raises e
    | returned => returned
    end.
Proof.
  destruct m as [sent [a | e]]; simpl; [reflexivity |].
  destruct (caught e); [now destruct h | reflexivity].
Qed.

End OutcomeFacts.

Section RaiseFacts.

Lemma py_get_raises o k d e : snd (py_get o k d) = Raises e -> e = AttributeError.
Proof.
  destruct o; simpl; try (now intros [= <-]).
  destruct (lookup_item k items); discriminate.
Qed.

Lemma getitem_key_raises o k e :
  snd (getitem_key o k) = Raises e -> e = KeyError \/ e = IndexError \/ e = TypeError.
Proof.
  destruct o; simpl; try (intros [= <-]; tauto).
  destruct (lookup_item k items); [discriminate | intros [= <-]; tauto].
Qed.

Lemma getitem_0_raises o e :
  snd (getitem_0 o) = Raises e -> e = KeyError \/ e = IndexError \/ e = TypeError.
Proof.
  destruct o as [| | | |[|c s]|[|x l]|]; simpl; try discriminate; intros [= <-]; tauto.
Qed.

Lemma first_candidate_text_raises j e :
  snd (first_candidate_text j) = Raises e ->
  e = KeyError \/ e = IndexError \/ e = TypeError.
Proof.
  unfold first_candidate_text. intros H.
  repeat (apply bind_raises_inv in H as [H | (? & _ & H)];
          [first [now apply getitem_key_raises in H | now apply getitem_0_raises in H] |]).
  now apply getitem_key_raises in H.
Qed.

Lemma slice_3_raises o e :
  snd (slice_3 o) = Raises e -> e = TypeError \/ e = SliceOfDictError.
Proof. destruct o; simpl; try discriminate; intros [= <-]; tauto. Qed.

Lemma summarize_raises py_repr items summary e :
  snd (summarize py_repr items summary) = Raises e -> e = AttributeError.
Proof.
  revert summary. induction items as [|item items IH]; intros summary; [discriminate |].
  cbn [summarize]. intros H.
  apply bind_raises_inv in H as [H | (t & _ & H)]; [now apply py_get_raises in H |].
  apply bind_raises_inv in H as [H | (s & _ & H)]; [now apply py_get_raises in H |].
  now apply IH in H.
Qed.

End RaiseFacts.

(* ===================================================================== *)
(** * More on the two upstream calls *)
(* ===================================================================== *)

Section UpstreamsMore.
Variable config : Config.
Variable upstream : Upstream.

Lemma eqb_false_ne (k : pystr) : PyStr.eqb k [] = false -> k <> [].
Proof. intros H ->. discriminate. Qed.

(** What a handler lets through is what it does not catch. *)
Lemma try_except_escapes {A} (m : M A) caught (a : A) e :
  snd (try_except m caught (ret a)) = Raises e -> caught e = false.
Proof.
  rewrite snd_try_except. destruct (snd m) as [x | e']; [discriminate |].
  destruct (caught e') eqn:E; [discriminate |]. now intros [= <-].
Qed.

(** A response with a JSON object: the value under [organic], or the empty
    list. *)
Lemma search_web_value q k st data :
  SERPER_API_KEY config = Some k -> k <> [] ->
  serper upstream k q = Response st (Some (PDict data)) ->
  error_status st = false ->
  search_web config upstream q
  = ([SerperSearch k q],
     Returns (default (PList []) (lookup_item (u "organic") data))).
Proof.
  intros Hk Hne Hresp Hst. unfold search_web.
  rewrite Hk, configured_key by assumption.
  cbn [from_option id]. unfold post_serper. rewrite bind_returns, Hresp.
  unfold error_status in Hst. cbn [raise_for_status]. rewrite Hst.
  rewrite bind_ret_l. cbn [resp_json]. rewrite bind_ret_l, py_get_dict. reflexivity.
Qed.

Lemma search_web_no_json q k st :
  SERPER_API_KEY config = Some k -> k <> [] ->
  serper upstream k q = Response st None ->
  search_web config upstream q = ([SerperSearch k q], Returns (PList [])).
Proof.
  intros Hk Hne Hresp. unfold search_web.
  rewrite Hk, configured_key by assumption.
  cbn [from_option id]. unfold post_serper. rewrite bind_returns, Hresp.
  cbn [raise_for_status]. destruct (_ && _); reflexivity.
Qed.

Lemma search_web_not_object q k st j :
  SERPER_API_KEY config = Some k -> k <> [] ->
  serper upstream k q = Response st (Some j) ->
  error_status st = false ->
  (forall items, j <> PDict items) ->
  search_web config upstream q = ([SerperSearch k q], Raises AttributeError).
Proof.
  intros Hk Hne Hresp Hst Hj. unfold search_web.
  rewrite Hk, configured_key by assumption.
  cbn [from_option id]. unfold post_serper. rewrite bind_returns, Hresp.
  unfold error_status in Hst. cbn [raise_for_status]. rewrite Hst.
  rewrite bind_ret_l. cbn [resp_json]. rewrite bind_ret_l.
  destruct j; try reflexivity. now destruct (Hj items).
Qed.

Lemma search_web_escapes q e :
  snd (search_web config upstream q) = Raises e -> is_RequestException e = false.
Proof.
  unfold search_web. destruct (not_configured _); [cbn [ret snd]; discriminate |].
  apply try_except_escapes.
Qed.

Lemma call_gemini_sent_any prompt :
  fst (call_gemini config upstream prompt)
  = if not_configured (GEMINI_API_KEY config) then []
    else [GeminiGenerate (default [] (GEMINI_API_KEY config)) prompt].
Proof.
  unfold call_gemini. destruct (not_configured _); [reflexivity |].
  rewrite fst_try_except by apply silent_ret.
  apply fst_bind_silent. intros resp.
  apply silent_bind; [apply silent_raise_for_status | intros _].
  apply silent_bind; [apply silent_resp_json | intros j].
  apply silent_first_candidate_text.
Qed.

Lemma call_gemini_escapes prompt e :
  snd (call_gemini config upstream prompt) = Raises e -> is_generation_failure e = false.
Proof.
  unfold call_gemini. destruct (not_configured _); [cbn [ret snd]; discriminate |].
  apply try_except_escapes.
Qed.

(** The value the extraction yields is the answer of [call_gemini]. *)
Lemma call_gemini_value prompt k st j v :
  GEMINI_API_KEY config = Some k -> k <> [] ->
  gemini upstream k prompt = Response st (Some j) ->
  error_status st = false ->
  first_candidate_text j = ret v ->
  call_gemini config upstream prompt = ([GeminiGenerate k prompt], Returns v).
Proof.
  intros Hk Hne Hresp Hst Hv. unfold call_gemini.
  rewrite Hk, configured_key by assumption.
  cbn [from_option id]. unfold post_gemini. rewrite bind_returns, Hresp.
  unfold error_status in Hst. cbn [raise_for_status]. rewrite Hst.
  rewrite bind_ret_l. cbn [resp_json]. rewrite bind_ret_l, Hv. reflexivity.
Qed.

End UpstreamsMore.

(* ===================================================================== *)
(** * More on [get_bot_response] *)
(* ===================================================================== *)

Section OrchestrationMore.
Variable config : Config.
Variable upstream : Upstream.
Variable py_repr : pyobj -> pystr.

Lemma build_prompt_falsy q sent v :
  contains no_search_flag q = false ->
  search_web config upstream q = (sent, Returns v) ->
  truthy v = false ->
  build_prompt config upstream py_repr q = (sent, Returns (direct_prompt q)).
Proof.
  intros H Hs Hv. unfold build_prompt. rewrite H, Hs, bind_returns.
  cbn [fst snd ret]. rewrite bind_returns.
  cbn [fst snd]. rewrite Hv. cbn [negb ret fst snd]. now rewrite !app_nil_r.
Qed.

Lemma build_prompt_sent q :
  fst (build_prompt config upstream py_repr q)
  = if contains no_search_flag q then []
    else if not_configured (SERPER_API_KEY config) then []
    else [SerperSearch (default [] (SERPER_API_KEY config)) q].
Proof.
  unfold build_prompt. rewrite fst_bind_silent by apply silent_after_search.
  destruct (contains no_search_flag q); [reflexivity |].
  rewrite fst_bind_silent by (intros r; reflexivity). apply search_web_sent.
Qed.

Lemma build_prompt_escapes q e :
  snd (build_prompt config upstream py_repr q) = Raises e ->
  is_RequestException e = false.
Proof.
  unfold build_prompt. intros H.
  apply bind_raises_inv in H as [H | (qs & _ & H)].
  - destruct (contains no_search_flag q); [discriminate |].
    apply bind_raises_inv in H as [H | (r & _ & H)]; [| discriminate].
    now apply search_web_escapes in H.
  - destruct (negb _); [discriminate |].
    apply bind_raises_inv in H as [H | (top & _ & H)];
      [apply slice_3_raises in H as [-> | ->]; reflexivity |].
    apply bind_raises_inv in H as [H | (summary & _ & H)]; [| discriminate].
    apply summarize_raises in H. now subst e.
Qed.

Lemma build_prompt_search_raises q sent e :
  contains no_search_flag q = false ->
  search_web config upstream q = (sent, Raises e) ->
  build_prompt config upstream py_repr q = (sent, Raises e).
Proof. intros H Hs. unfold build_prompt. now rewrite H, Hs. Qed.

Lemma get_bot_response_call_raises q sent prompt sent' e :
  build_prompt config upstream py_repr q = (sent, Returns prompt) ->
  call_gemini config upstream prompt = (sent', Raises e) ->
  get_bot_response config upstream py_repr q = (sent ++ sent', Raises e).
Proof.
  intros Hb Hc. unfold get_bot_response. now rewrite Hb, bind_returns, Hc.
Qed.

(** The text a call returns is the apology or a trimmed answer. *)
Lemma get_bot_response_returns q r :
  snd (get_bot_response config upstream py_repr q) = Returns r ->
  r = apology \/ exists text, r = strip text.
Proof.
  unfold get_bot_response. intros H.
  apply bind_returns_inv in H as (prompt & _ & H).
  apply bind_returns_inv in H as (answer & _ & H).
  destruct answer; try discriminate; injection H as <-; [now left | right; now eexists].
Qed.

(** X8. A query without the skip flag whose search succeeds with a
    document that has nothing true under [organic] (no such entry, an empty
    list, [null]), or with a body that is no JSON document: the prompt
    built is the direct one, around the query as it came. *)
Theorem empty_search_gives_direct_prompt q k st body :
  contains no_search_flag q = false ->
  SERPER_API_KEY config = Some k -> k <> [] ->
  serper upstream k q = Response st body ->
  error_status st = false ->
  match body with
  | None => True
  | Some (PDict data) =>
      truthy (default (PList []) (lookup_item (u "organic") data)) = false
  | Some _ => False
  end ->
  build_prompt config upstream py_repr q
  = ([SerperSearch k q], Returns (direct_prompt q)).
Proof.
  intros Hflag Hk Hne Hresp Hst Hbody. destruct body as [j |].
  - destruct j; try contradiction.
    exact (build_prompt_falsy q _ _ Hflag
             (search_web_value config upstream q k st items Hk Hne Hresp Hst) Hbody).
  - exact (build_prompt_falsy q _ _ Hflag
             (search_web_no_json config upstream q k st Hk Hne Hresp) eq_refl).
Qed.

(** X9. A call sends at most one request to each service and never one
    again: the requests sent are a search request or none, with the search
    key and the query as it came, followed by a generation request or
    none, with the generation key. *)
Theorem at_most_one_request_each q :
  exists s g,
    fst (get_bot_response config upstream py_repr q) = s ++ g /\
    (s = [] \/ exists k, SERPER_API_KEY config = Some k /\ s = [SerperSearch k q]) /\
    (g = [] \/ exists k prompt,
                 GEMINI_API_KEY config = Some k /\ g = [GeminiGenerate k prompt]).
Proof.
  unfold get_bot_response. rewrite fst_bind, build_prompt_sent.
  eexists _, _. split; [reflexivity |]. split.
  - destruct (contains no_search_flag q); [now left |].
    destruct (SERPER_API_KEY config) as [k |]; [| now left].
    destruct (not_configured (Some k)); [now left | right; now exists k].
  - destruct (snd _) as [prompt | e]; [| now left].
    rewrite fst_bind_silent by (intros answer; now destruct answer).
    rewrite call_gemini_sent_any.
    destruct (GEMINI_API_KEY config) as [k |]; [| now left].
    destruct (not_configured (Some k)); [now left | right; now exists k, prompt].
Qed.

(** X6. A search response free of an error status whose JSON document
    is not an object: [search_web] raises [AttributeError] once the request
    has been sent, and so does [get_bot_response] for a query without the
    skip flag, before any generation request. *)
Theorem non_object_search_document_raises q k st j :
  SERPER_API_KEY config = Some k -> k <> [] ->
  serper upstream k q = Response st (Some j) ->
  error_status st = false ->
  (forall items, j <> PDict items) ->
  search_web config upstream q = ([SerperSearch k q], Raises AttributeError) /\
  (contains no_search_flag q = false ->
   get_bot_response config upstream py_repr q
   = ([SerperSearch k q], Raises AttributeError)).
Proof.
  intros Hk Hne Hresp Hst Hj.
  pose proof (search_web_not_object config upstream q k st j Hk Hne Hresp Hst Hj) as Hs.
  split; [exact Hs |]. intros Hflag. unfold get_bot_response.
  now rewrite (build_prompt_search_raises q _ _ Hflag Hs).
Qed.

(** X7. With the generation key configured and a prompt built, a response
    free of an error status whose document holds, on the way to
    [candidates[0].content.parts[0].text], a value of the wrong kind
    ([null], a number or a truth value where an element is taken; anything
    but an object where a key is looked up): [call_gemini] raises
    [TypeError] after its request, and [get_bot_response] raises it too,
    with no apology. *)
Theorem mistyped_document_raises_type_error q sent prompt k st j :
  GEMINI_API_KEY config = Some k -> k <> [] ->
  build_prompt config upstream py_repr q = (sent, Returns prompt) ->
  gemini upstream k prompt = Response st (Some j) ->
  error_status st = false ->
  mistyped expected_places j = true ->
  call_gemini config upstream prompt = ([GeminiGenerate k prompt], Raises TypeError) /\
  get_bot_response config upstream py_repr q
  = (sent ++ [GeminiGenerate k prompt], Raises TypeError).
Proof.
  intros Hk Hne Hb Hresp Hst Hj.
  pose proof (call_gemini_mistyped config upstream prompt k st j Hk Hne Hresp Hst Hj) as Hc.
  split; [exact Hc |]. exact (get_bot_response_call_raises q _ _ _ _ Hb Hc).
Qed.

(** X10. What the two handlers catch does not come out: no
    [RequestException] leaves [search_web] or [get_bot_response], and
    neither a [RequestException] nor a [KeyError] nor an [IndexError]
    leaves [call_gemini]. *)
Theorem caught_errors_do_not_escape q :
  snd (search_web config upstream q) <> Raises RequestException /\
  snd (get_bot_response config upstream py_repr q) <> Raises RequestException /\
  forall prompt e,
    In e [RequestException; KeyError; IndexError] ->
    snd (call_gemini config upstream prompt) <> Raises e.
Proof.
  split; [| split].
  - intros H. now apply search_web_escapes in H.
  - unfold get_bot_response. intros H.
    apply bind_raises_inv in H as [H | (prompt & _ & H)];
      [now apply build_prompt_escapes in H |].
    apply bind_raises_inv in H as [H | (answer & _ & H)].
    + now apply call_gemini_escapes in H.
    + destruct answer; discriminate.
  - intros prompt e He H. apply call_gemini_escapes in H.
    simpl in He. destruct He as [<- | [<- | [<- | []]]]; discriminate.
Qed.

(** X11. Every text [get_bot_response] returns, the apology, the answer of
    the model or the text for a missing key, is free of white space at
    both ends. *)
Theorem replies_are_trimmed q r :
  snd (get_bot_response config upstream py_repr q) = Returns r -> trimmed r.
Proof.
  intros H. apply get_bot_response_returns in H as [-> | [text ->]].
  - split; vm_compute; reflexivity.
  - apply strip_trimmed.
Qed.

(** X12. With the generation key configured, a prompt built and a response
    free of an error status whose document yields a value at
    [candidates[0].content.parts[0].text], the type of that value decides:
    a string is returned trimmed, [null] gives the apology as a failure
    would, and any other value raises [AttributeError]. *)
Theorem answer_by_text_type q sent prompt k st j v :
  GEMINI_API_KEY config = Some k -> k <> [] ->
  build_prompt config upstream py_repr q = (sent, Returns prompt) ->
  gemini upstream k prompt = Response st (Some j) ->
  error_status st = false ->
  first_candidate_text j = ret v ->
  get_bot_response config upstream py_repr q
  = (sent ++ [GeminiGenerate k prompt],
     match v with
     | PNone => Returns apology
     | PStr text => Returns (strip text)
     | _ => Raises AttributeError
     end).
Proof.
  intros Hk Hne Hb Hresp Hst Hv.
  exact (get_bot_response_answer config upstream py_repr q sent prompt _ v Hb
           (call_gemini_value config upstream prompt k st j v Hk Hne Hresp Hst Hv)).
Qed.

End OrchestrationMore.

(* ===================================================================== *)
(** * The chatbot view *)
(* ===================================================================== *)

Section AskPutriFacts.
Variable config : Config.
Variable upstream : Upstream.
Variable py_repr : pyobj -> pystr.
Variable container : pyobj -> M pystr.

Lemma contains_flag_nonempty q : contains no_search_flag q = true -> q <> [].
Proof. intros H ->. discriminate. Qed.


(** X14. A query that holds the skip flag and, the flag taken away,
    nothing but white space is not empty, so [ask_putri] passes it on; with
    the generation key configured the one request sent asks the model the
    empty question. *)
Theorem flag_only_query_reaches_model d q gk :
  lookup_item (u "query") d = Some (PStr q) ->
  contains no_search_flag q = true ->
  (forall c, In c (replace no_search_flag [] q) -> isspace c = true) ->
  GEMINI_API_KEY config = Some gk -> gk <> [] ->
  fst (ask_putri config upstream py_repr container (PDict d))
  = [GeminiGenerate gk (direct_prompt [])].
Proof.
  intros Hq Hflag Hblank Hgk Hne. unfold ask_putri.
  rewrite py_get_dict, bind_ret_l, Hq. cbn [from_option id truthy].
  assert (Hn : PyStr.eqb q [] = false).
  { apply not_true_is_false. intros E. apply eqb_eq in E.
    now apply (contains_flag_nonempty q). }
  rewrite Hn. cbn [negb respond]. rewrite fst_bind_silent by (intros ?; reflexivity).
  pose proof (build_prompt_flag config upstream py_repr q Hflag) as Hb.
  rewrite (strip_blank _ Hblank) in Hb.
  now rewrite (get_bot_response_sent config upstream py_repr q _ _ gk Hb Hgk Hne).
Qed.

End AskPutriFacts.

(* ===================================================================== *)
(** * The review view *)
(* ===================================================================== *)

Section DetailWisataFacts.
Variable from_buffer : list byte -> pystr.
Variable UPLOAD_FOLDER : pystr.
Variable censor_text : pystr -> pystr.

Lemma add_photos_pending names r s :
  add_photos names r s
  = {| pending := pending s ++ photo_rows r names; stored := stored s |}.
Proof.
  revert s. induction names as [|n names IH]; intros s.
  - destruct s. simpl. now rewrite app_nil_r.
  - change (add_photos (n :: names) r s)
      with (add_photos names r (session_add (FotoUlasan n r) s)).
    rewrite IH. unfold session_add. cbn [pending stored photo_rows map].
    now rewrite <- app_assoc.
Qed.


Lemma save_pictures_refused_at good picture rest w e :
  Forall (fun p => allowed from_buffer p = true) good ->
  Forall (fun p => storable p = true) good ->
  allowed from_buffer picture = true ->
  extension_error (extension_of picture) = Some e ->
  fst (save_pictures from_buffer UPLOAD_FOLDER (good ++ picture :: rest) w) = Raises e /\
  disk (snd (save_pictures from_buffer UPLOAD_FOLDER (good ++ picture :: rest) w))
  = write_all UPLOAD_FOLDER (zip good (names_from (entropy w) (drawn w) good)) (disk w).
Proof.
  intros Hgood Hstor Hp He. unfold save_pictures.
  rewrite save_loop_app, (save_loop_allowed _ _ good [] w Hgood Hstor).
  rewrite (save_loop_refused _ _ _ _ _ _ e) by assumption. now split.
Qed.

(** A name of the list is the path of a file with the content of one of
    the candidates. *)
Lemma write_all_some pictures names d n :
  Forall2 generated_name pictures names -> In n names ->
  exists p, In p pictures /\
    write_all UPLOAD_FOLDER (zip pictures names) d !! join UPLOAD_FOLDER n
    = Some (stream p).
Proof.
  intros Hgen. revert d.
  induction Hgen as [|p m pictures names Hp Hgen IH]; intros d Hin; [contradiction |].
  change (write_all UPLOAD_FOLDER (zip (p :: pictures) (m :: names)) d)
    with (write_all UPLOAD_FOLDER (zip pictures names)
            (<[join UPLOAD_FOLDER m := stream p]> d)).
  destruct (List.in_dec (List.list_eq_dec N.eq_dec) n names) as [Hn | Hn].
  - destruct (IH (<[join UPLOAD_FOLDER m := stream p]> d) Hn) as (p' & Hp' & Hl).
    exists p'. split; [now right | assumption].
  - destruct Hin as [-> | Hin]; [| contradiction].
    exists p. split; [now left |].
    rewrite write_all_other; [apply lookup_insert_eq |].
    intros [q k] Hqk E. simpl in E. apply in_zip_r in Hqk as Hk.
    assert (Hq : exists q', generated_name q' k).
    { clear - Hgen Hk. induction Hgen as [|q' k' ps ns Hq' _ IH]; [contradiction |].
      destruct Hk as [-> | Hk]; [now exists q' | now apply IH]. }
    destruct Hq as [q' Hq'].
    apply join_plain_inj in E;
      [| now apply (generated_name_no_sep q') | now apply (generated_name_no_sep p)].
    now subst k.
Qed.



(** X21. A form with an accepted photo whose generated name cannot be
    opened, behind photos that were saved: the session is rolled back; for
    a NUL in the extension the message flashed carries the text of
    Python's error, for a name too long it is the message for unexpected
    errors; the files of the photos before it stay on disk with no row
    that names them. *)
Theorem unopenable_upload_rolls_back current_user w form site good picture rest e :
  form_foto form = good ++ picture :: rest ->
  has_upload (form_foto form) = true ->
  Forall (fun p => allowed from_buffer p = true) good ->
  Forall (fun p => storable p = true) good ->
  allowed from_buffer picture = true ->
  extension_error (extension_of picture) = Some e ->
  let site' := detail_wisata from_buffer UPLOAD_FOLDER censor_text current_user w form site in
  session site' = {| pending := []; stored := stored (session site) |} /\
  flashed site'
  = flashed site ++
    [if existsb (N.eqb 0) (extension_of picture)
     then upload_failed (u "embedded null byte") else unexpected_error] /\
  disk (world site')
  = write_all UPLOAD_FOLDER
      (zip good (names_from (entropy (world site)) (drawn (world site)) good))
      (disk (world site)).
Proof.
  intros Hfoto Hup Hgood Hstor Hp He site'. subst site'. unfold detail_wisata.
  rewrite Hup, Hfoto.
  destruct (save_pictures_refused_at good picture rest (world site) e Hgood Hstor Hp He)
    as (Hr & Hd).
  destruct (save_pictures _ _ _ _) as [r w'] eqn:E. simpl in Hr, Hd. subst r.
  unfold extension_error in He.
  destruct (existsb _ _).
  - injection He as <-. now repeat split.
  - destruct (_ <? _); [| discriminate]. injection He as <-. now repeat split.
Qed.

(** X17. Whatever the form, every photo row a call commits, the rows
    pending before it apart, names a file that is on disk after the call
    with the whole content of one of the form's accepted photos. *)
Theorem photo_rows_name_written_files current_user w form site :
  let site' := detail_wisata from_buffer UPLOAD_FOLDER censor_text current_user w form site in
  exists added,
    stored (session site') = stored (session site) ++ added /\
    forall n r, In (FotoUlasan n r) added ->
      In (FotoUlasan n r) (pending (session site)) \/
      exists p, In p (form_foto form) /\ allowed from_buffer p = true /\
        disk (world site') !! join UPLOAD_FOLDER n = Some (stream p).
Proof.
  intros site'. subst site'. unfold detail_wisata.
  set (r0 := {| rating := form_rating form;
                komentar := censor_text (form_komentar form);
                author := current_user; wisata_reviewed := w |}).
  destruct (has_upload (form_foto form)).
  - destruct (save_pictures _ _ _ _) as [[names | e] w'] eqn:E.
    + exists (pending (session site) ++ ReviewRow r0 :: photo_rows r0 names).
      cbn [session world]. rewrite add_photos_pending.
      unfold session_commit, session_add. cbn [pending stored].
      split; [now rewrite <- !app_assoc |].
      intros n r Hin. apply in_app_or in Hin as [Hin | [Hin | Hin]];
        [now left | discriminate |]. right.
      apply in_map_iff in Hin as (m & [= -> _] & Hm).
      assert (Hfst : fst (save_pictures from_buffer UPLOAD_FOLDER (form_foto form)
                            (world site)) = Returns names) by now rewrite E.
      destruct (save_loop_returns_allowed _ _ _ _ _ _ Hfst) as [Hall Hst].
      unfold save_pictures in E.
      rewrite (save_loop_allowed from_buffer UPLOAD_FOLDER (form_foto form) []
                 (world site) Hall Hst) in E.
      injection E as <- <-. cbn [disk app] in *.
      destruct (write_all_some (form_foto form) _ (disk (world site)) n
                  (names_from_generated _ _ _) Hm) as (p & Hp & Hl).
      exists p. split; [assumption |]. split; [| exact Hl].
      rewrite List.Forall_forall in Hall. now apply Hall.
    + exists []. split; [| intros n r []].
      destruct e; cbn [session]; unfold session_rollback; cbn [stored];
        now rewrite app_nil_r.
  - exists (pending (session site) ++ [ReviewRow r0]). split; [reflexivity |].
    intros n r Hin. apply in_app_or in Hin as [Hin | [Hin | []]];
      [now left | discriminate].
Qed.

End DetailWisataFacts.

(* ===================================================================== *)
(** * Search results of other shapes *)
(* ===================================================================== *)

Section ResultShapes.
Variable config : Config.
Variable upstream : Upstream.
Variable py_repr : pyobj -> pystr.

Lemma summarize_stops good bad rest summary :
  (forall d, bad <> PDict d) ->
  summarize py_repr (map PDict good ++ bad :: rest) summary = raise AttributeError.
Proof.
  intros Hbad. revert summary. induction good as [|g good IH]; intros summary.
  - cbn [map app summarize]. destruct bad; try reflexivity. now destruct (Hbad items).
  - cbn [map app summarize]. rewrite !py_get_dict, !bind_ret_l. apply IH.
Qed.

Lemma take_nonempty {A} (l : list A) n : firstn n l <> [] -> l <> [].
Proof. intros H ->. now destruct n. Qed.

(** X18. Of a list of organic results only the first three are read: when
    these are objects, the prompt is the augmented one with their lines,
    whatever stands behind them in the list, an entry that is no object
    included. *)
Theorem results_beyond_third_ignored q k st data l items :
  contains no_search_flag q = false ->
  SERPER_API_KEY config = Some k -> k <> [] ->
  serper upstream k q = Response st (Some (PDict data)) ->
  error_status st = false ->
  lookup_item (u "organic") data = Some (PList l) ->
  firstn 3 l = map PDict items -> items <> [] ->
  build_prompt config upstream py_repr q
  = ([SerperSearch k q],
     Returns (augmented_prompt (concat (map (summary_line py_repr) items)) q)).
Proof.
  intros Hflag Hk Hne Hresp Hst Horg Htop Hitems.
  pose proof (search_web_organic config upstream q k st data _ Hk Hne Hresp Hst Horg) as Hs.
  unfold build_prompt. rewrite Hflag, Hs, bind_returns.
  cbn [fst snd ret]. rewrite bind_returns. cbn [fst snd].
  assert (Hl : l <> []).
  { apply (take_nonempty l 3). rewrite Htop. now destruct items. }
  destruct l as [|x l]; [contradiction |].
  cbn [truthy negb slice_3]. rewrite bind_ret_l, Htop, summarize_items, bind_ret_l.
  cbn [ret fst snd app]. reflexivity.
Qed.

(** X19. When one of the first three organic results is not an object,
    [get_bot_response] raises [AttributeError]: the search request has been
    sent and no generation request follows. *)
Theorem non_object_result_raises q k st data l good bad rest :
  contains no_search_flag q = false ->
  SERPER_API_KEY config = Some k -> k <> [] ->
  serper upstream k q = Response st (Some (PDict data)) ->
  error_status st = false ->
  lookup_item (u "organic") data = Some (PList l) ->
  firstn 3 l = map PDict good ++ bad :: rest ->
  (forall d, bad <> PDict d) ->
  get_bot_response config upstream py_repr q
  = ([SerperSearch k q], Raises AttributeError).
Proof.
  intros Hflag Hk Hne Hresp Hst Horg Htop Hbad.
  pose proof (search_web_organic config upstream q k st data _ Hk Hne Hresp Hst Horg) as Hs.
  unfold get_bot_response, build_prompt. rewrite Hflag, Hs, bind_returns.
  cbn [fst snd ret]. rewrite bind_returns. cbn [fst snd].
  assert (Hl : l <> []).
  { apply (take_nonempty l 3). rewrite Htop. now destruct good. }
  destruct l as [|x l]; [contradiction |].
  cbn [truthy negb slice_3]. rewrite bind_ret_l, Htop, summarize_stops by assumption.
  reflexivity.
Qed.

End ResultShapes.

(* ===================================================================== *)
(** * The further properties at the worked inputs *)
(* ===================================================================== *)

(** X2 at two JPEG files. *)
Lemma accepted_files_found_witness :
  fst (save_pictures magic_numbers uploads [photo_jpg; holiday_png] fresh_world)
  = Returns [first_uuid ++ u ".jpg"; second_uuid ++ u ".png"] /\
  NoDup [first_uuid ++ u ".jpg"; second_uuid ++ u ".png"] /\
  length [first_uuid ++ u ".jpg"; second_uuid ++ u ".png"]
  = length [photo_jpg; holiday_png] /\
  Forall2 (fun p n =>
             disk (snd (save_pictures magic_numbers uploads [photo_jpg; holiday_png]
                          fresh_world))
               !! join uploads n = Some (stream p))
    [photo_jpg; holiday_png] [first_uuid ++ u ".jpg"; second_uuid ++ u ".png"].
Proof.
  assert (H : fst (save_pictures magic_numbers uploads [photo_jpg; holiday_png] fresh_world)
              = Returns [first_uuid ++ u ".jpg"; second_uuid ++ u ".png"])
    by (vm_compute; reflexivity).
  assert (Hnd : NoDup [first_uuid ++ u ".jpg"; second_uuid ++ u ".png"])
    by (apply (bool_decide_unpack _); vm_compute; exact I).
  split; [exact H | split; [exact Hnd |]].
  exact (accepted_files_found magic_numbers uploads _ fresh_world _ H Hnd).
Defined.

(** X4 at a JPEG whose file name climbs out of the folder. *)
Lemma stored_names_inside_folder_witness :
  fst (save_pictures magic_numbers uploads [climbing_png] fresh_world)
  = Returns [first_uuid ++ u ".png"] /\
  Forall2 (fun p n =>
             ~ In sep n /\ extension_shaped (extension_of p) /\
             join uploads n
             = uploads ++
               (if PyStr.eqb uploads [] || endswith [sep] uploads
                then [] else [sep]) ++ n)
    [climbing_png] [first_uuid ++ u ".png"].
Proof.
  assert (H : fst (save_pictures magic_numbers uploads [climbing_png] fresh_world)
              = Returns [first_uuid ++ u ".png"])
    by (vm_compute; reflexivity).
  split; [exact H |].
  exact (stored_names_inside_folder magic_numbers uploads _ fresh_world _ H).
Defined.

(** X5 at a JPEG of 2048 bytes followed by one byte, and by two others. *)
Lemma verdict_reads_head_only_witness :
  Forall2 same_head [padded [x01]] [padded [x02; x03]] /\
  fst (save_pictures magic_numbers uploads [padded [x01]] fresh_world)
  = fst (save_pictures magic_numbers uploads [padded [x02; x03]] fresh_world).
Proof.
  assert (H : Forall2 same_head [padded [x01]] [padded [x02; x03]]).
  { constructor; [| constructor]. split; vm_compute; reflexivity. }
  split; [exact H |].
  exact (verdict_reads_head_only magic_numbers uploads _ _ fresh_world fresh_world
           H eq_refl eq_refl).
Defined.

(** X6 at a search that answers with a JSON array. *)
Lemma non_object_search_document_raises_witness :
  serper search_answers_array (u "serper-key") bali = Response 200 (Some (PList [])) /\
  search_web both_keys search_answers_array bali
  = ([SerperSearch (u "serper-key") bali], Raises AttributeError) /\
  get_bot_response both_keys search_answers_array repr_unused bali
  = ([SerperSearch (u "serper-key") bali], Raises AttributeError).
Proof.
  split; [reflexivity |].
  destruct (non_object_search_document_raises both_keys search_answers_array
              repr_unused bali (u "serper-key") 200 (PList [])) as [Hs Hg].
  - reflexivity.
  - discriminate.
  - reflexivity.
  - reflexivity.
  - discriminate.
  - split; [exact Hs |]. apply Hg. vm_compute. reflexivity.
Defined.

(** X7 at a generation document that holds [null] for its candidates. *)
Lemma mistyped_document_raises_type_error_witness :
  mistyped expected_places (PDict [(u "candidates", PNone)]) = true /\
  call_gemini both_keys no_organic_null_candidates (direct_prompt bali)
  = ([GeminiGenerate (u "gemini-key") (direct_prompt bali)], Raises TypeError) /\
  get_bot_response both_keys no_organic_null_candidates repr_unused bali
  = ([SerperSearch (u "serper-key") bali] ++
     [GeminiGenerate (u "gemini-key") (direct_prompt bali)],
     Raises TypeError).
Proof.
  split; [reflexivity |].
  apply (mistyped_document_raises_type_error both_keys no_organic_null_candidates
           repr_unused bali [SerperSearch (u "serper-key") bali] (direct_prompt bali)
           (u "gemini-key") 200 (PDict [(u "candidates", PNone)])).
  - reflexivity.
  - discriminate.
  - vm_compute. reflexivity.
  - reflexivity.
  - reflexivity.
  - reflexivity.
Defined.

(** X8 at a search document without an [organic] entry. *)
Lemma empty_search_gives_direct_prompt_witness :
  serper no_organic_null_candidates (u "serper-key") bali
  = Response 200 (Some (PDict [(u "searchParameters", PDict [])])) /\
  build_prompt both_keys no_organic_null_candidates repr_unused bali
  = ([SerperSearch (u "serper-key") bali], Returns (direct_prompt bali)).
Proof.
  split; [reflexivity |].
  apply (empty_search_gives_direct_prompt both_keys no_organic_null_candidates
           repr_unused bali (u "serper-key") 200
           (Some (PDict [(u "searchParameters", PDict [])]))).
  - vm_compute. reflexivity.
  - reflexivity.
  - discriminate.
  - reflexivity.
  - reflexivity.
  - vm_compute. reflexivity.
Defined.

(** X11 at a model that answers with blanks around its text. *)
Lemma replies_are_trimmed_witness :
  snd (get_bot_response both_keys (search_down (u " Halo! ")) repr_unused bali)
  = Returns (u "Halo!") /\
  trimmed (u "Halo!").
Proof.
  assert (H : snd (get_bot_response both_keys (search_down (u " Halo! ")) repr_unused bali)
              = Returns (u "Halo!")) by (vm_compute; reflexivity).
  split; [exact H |].
  exact (replies_are_trimmed both_keys (search_down (u " Halo! ")) repr_unused bali _ H).
Defined.

(** X12 at a generation document whose text is [null]. *)
Lemma answer_by_text_type_witness :
  first_candidate_text null_text_document = ret PNone /\
  get_bot_response both_keys null_text repr_unused bali
  = ([SerperSearch (u "serper-key") bali] ++
     [GeminiGenerate (u "gemini-key") (direct_prompt bali)],
     Returns apology).
Proof.
  split; [vm_compute; reflexivity |].
  apply (answer_by_text_type both_keys null_text repr_unused bali
           [SerperSearch (u "serper-key") bali] (direct_prompt bali)
           (u "gemini-key") 200 null_text_document PNone).
  - reflexivity.
  - discriminate.
  - vm_compute. reflexivity.
  - reflexivity.
  - reflexivity.
  - vm_compute. reflexivity.
Defined.


(** X14 at a query that is the flag and nothing else. *)
Lemma flag_only_query_reaches_model_witness :
  contains no_search_flag no_search_flag = true /\
  fst (ask_putri both_keys offline repr_unused container_unused
         (PDict [(u "query", PStr no_search_flag)]))
  = [GeminiGenerate (u "gemini-key") (direct_prompt [])].
Proof.
  split; [vm_compute; reflexivity |].
  apply (flag_only_query_reaches_model both_keys offline repr_unused container_unused
           [(u "query", PStr no_search_flag)] no_search_flag (u "gemini-key")).
  - vm_compute. reflexivity.
  - vm_compute. reflexivity.
  - intros c H. vm_compute in H. destruct H.
  - reflexivity.
  - discriminate.
Defined.



(** X18 at three results followed by a string. *)
Lemma results_beyond_third_ignored_witness :
  firstn 3 (map PDict (firstn 3 five_hits) ++ [PStr (u "junk")])
  = map PDict (firstn 3 five_hits) /\
  build_prompt both_keys junk_fourth repr_unused bali
  = ([SerperSearch (u "serper-key") bali],
     Returns (augmented_prompt
                (concat (map (summary_line repr_unused) (firstn 3 five_hits))) bali)).
Proof.
  split; [reflexivity |].
  apply (results_beyond_third_ignored both_keys junk_fourth repr_unused bali
           (u "serper-key") 200
           [(u "organic", PList (map PDict (firstn 3 five_hits) ++ [PStr (u "junk")]))]
           (map PDict (firstn 3 five_hits) ++ [PStr (u "junk")]) (firstn 3 five_hits)).
  - vm_compute. reflexivity.
  - reflexivity.
  - discriminate.
  - reflexivity.
  - reflexivity.
  - reflexivity.
  - reflexivity.
  - discriminate.
Defined.

(** X19 at a result followed by [null]. *)
Lemma non_object_result_raises_witness :
  firstn 3 (map PDict (firstn 1 five_hits) ++ [PNone])
  = map PDict (firstn 1 five_hits) ++ PNone :: [] /\
  get_bot_response both_keys null_second repr_unused bali
  = ([SerperSearch (u "serper-key") bali], Raises AttributeError).
Proof.
  split; [reflexivity |].
  apply (non_object_result_raises both_keys null_second repr_unused bali
           (u "serper-key") 200
           [(u "organic", PList (map PDict (firstn 1 five_hits) ++ [PNone]))]
           (map PDict (firstn 1 five_hits) ++ [PNone]) (firstn 1 five_hits) PNone []).
  - vm_compute. reflexivity.
  - reflexivity.
  - discriminate.
  - reflexivity.
  - reflexivity.
  - reflexivity.
  - reflexivity.
  - discriminate.
Defined.

(** X20 at a JPEG, then a JPEG whose extension holds a NUL, then a text
    file. *)
Lemma unopenable_name_raises_witness :
  allowed magic_numbers nul_png = true /\
  extension_error (extension_of nul_png) = Some (ValueError (u "embedded null byte")) /\
  save_pictures magic_numbers uploads ([photo_jpg] ++ nul_png :: [notes_txt]) fresh_world
  = (Raises (ValueError (u "embedded null byte")),
     refused_world (snd (save_pictures magic_numbers uploads [photo_jpg] fresh_world))) /\
  fst (save_pictures magic_numbers uploads [photo_jpg] fresh_world)
  = Returns (names_from (entropy fresh_world) (drawn fresh_world) [photo_jpg]).
Proof.
  assert (Ha : allowed magic_numbers nul_png = true) by reflexivity.
  assert (He : extension_error (extension_of nul_png)
               = Some (ValueError (u "embedded null byte"))) by reflexivity.
  split; [exact Ha | split; [exact He |]].
  destruct (unopenable_name_raises magic_numbers uploads [photo_jpg] nul_png [notes_txt]
              fresh_world _
              ltac:(constructor; [reflexivity | constructor])
              ltac:(constructor; [reflexivity | constructor]) Ha He) as (H1 & H2 & _).
  split; [exact H1 | exact H2].
Defined.

(** X21 at a review whose only photo is a JPEG with a NUL in its
    extension. *)
Lemma unopenable_upload_rolls_back_witness :
  has_upload (form_foto (review_with [nul_png])) = true /\
  let site' := detail_wisata magic_numbers uploads censor_nothing 7 3
                 (review_with [nul_png]) fresh_site in
  session site' = {| pending := []; stored := [] |} /\
  flashed site' = [(u "Gagal mengunggah: embedded null byte", u "danger")] /\
  disk (world site') = ∅.
Proof.
  split; [reflexivity |].
  apply (unopenable_upload_rolls_back magic_numbers uploads censor_nothing 7 3
           (review_with [nul_png]) fresh_site [] nul_png []
           (ValueError (u "embedded null byte"))).
  - reflexivity.
  - reflexivity.
  - constructor.
  - constructor.
  - reflexivity.
  - reflexivity.
Defined.
